(** * 04-verify-jenkins.py: shallow embedding and verification

    The script loads [jenkins.env] into [os.environ], then (variant 1,
    crumb based) fetches a CSRF crumb from Jenkins and posts a Groovy
    script to [/scriptText].

    Model.
    - A Python [str] is held as its UTF-8 encoding, a [string] of bytes:
      the file is opened in text mode in a UTF-8 locale, so each line it
      yields is valid UTF-8 (bytes that are not make the read raise
      UnicodeDecodeError, the read error of [Lines]).  [str.strip()]
      removes every character for which [str.isspace] holds, the
      non-ASCII ones included.
    - The process is a state/exception monad [Py] over a [world] holding
      [os.environ], the environment file, the HTTP server, the console and
      the list of network requests sent.  A Python exception is a value of
      [exn]; [exit(1)] raises [SystemExit 1], as in Python.
    - [urllib.request.urlopen] is modelled with the opener chain that
      [build_opener] installs: the server's final reply (after the Basic
      auth handler and redirects) is returned for a 2xx status and raised
      as [HTTPError] (a subclass of [URLError]) otherwise; an unreachable
      server raises [URLError]; the exceptions that escape the chain
      without being wrapped in [URLError] (the [ValueError] of the Basic
      auth handler on a 401 that offers no Basic challenge, the
      [http.client] errors of [getresponse]) are raised as they are.
    - A reply body carries its UTF-8 decoding ([None]: [.decode()] raises)
      and its JSON reading ([None]: [json.loads] raises). *)

From Stdlib Require Import String Ascii List ZArith Bool Lia.
Import ListNotations.
Open Scope string_scope.
Open Scope Z_scope.
Set Warnings "-register-all".

(** ** Python strings *)

(** [str.isspace] on the one-byte characters: \t \n \v \f \r,
    \x1c-\x1f and space. *)
Definition is_space (c : ascii) : bool :=
  let n := nat_of_ascii c in
  ((9 <=? n)%nat && (n <=? 13)%nat) || ((28 <=? n)%nat && (n <=? 32)%nat).

(** [str.isspace] on the two-byte characters, as UTF-8 bytes: U+0085
    (C2 85) and U+00A0 (C2 A0). *)
Definition ws2 (c d : ascii) : bool :=
  let a := nat_of_ascii c in
  let b := nat_of_ascii d in
  (a =? 194)%nat && ((b =? 133)%nat || (b =? 160)%nat).

(** [str.isspace] on the three-byte characters, as UTF-8 bytes: U+1680
    (E1 9A 80), U+2000-U+200A (E2 80 80-8A), U+2028 (E2 80 A8), U+2029
    (E2 80 A9), U+202F (E2 80 AF), U+205F (E2 81 9F), U+3000 (E3 80 80).
    No character of four bytes is a space. *)
Definition ws3 (c d e : ascii) : bool :=
  let a := nat_of_ascii c in
  let b := nat_of_ascii d in
  let x := nat_of_ascii e in
  ((a =? 225)%nat && (b =? 154)%nat && (x =? 128)%nat)
  || ((a =? 226)%nat && (b =? 128)%nat
      && (((128 <=? x)%nat && (x <=? 138)%nat)
          || (x =? 168)%nat || (x =? 169)%nat || (x =? 175)%nat))
  || ((a =? 226)%nat && (b =? 129)%nat && (x =? 159)%nat)
  || ((a =? 227)%nat && (b =? 128)%nat && (x =? 128)%nat).

(** [s.lstrip()]: drop the leading whitespace characters.  On UTF-8 text
    the scan is at a character boundary at each step: ASCII bytes and the
    lead bytes C2, E1, E2 and E3 never occur inside a multi-byte
    character. *)
Fixpoint lstrip_u (s : string) : string :=
  match s with
  | EmptyString => EmptyString
  | String c s1 =>
      if is_space c then lstrip_u s1 else
      match s1 with
      | String d s2 =>
          if ws2 c d then lstrip_u s2 else
          match s2 with
          | String e s3 => if ws3 c d e then lstrip_u s3 else s
          | EmptyString => s
          end
      | EmptyString => s
      end
  end.

(** A whitespace character [w] before the stripped rest [r]: kept when
    something is left after it, dropped at the end. *)
Definition glue (w r : string) : string :=
  if String.eqb r "" then "" else w ++ r.

(** [s.rstrip()]: drop the trailing whitespace characters. *)
Fixpoint rstrip_u (s : string) : string :=
  match s with
  | EmptyString => EmptyString
  | String c s1 =>
      if is_space c then glue (String c "") (rstrip_u s1) else
      match s1 with
      | String d s2 =>
          if ws2 c d then glue (String c (String d "")) (rstrip_u s2) else
          match s2 with
          | String e s3 =>
              if ws3 c d e then glue (String c (String d (String e ""))) (rstrip_u s3)
              else String c (rstrip_u s1)
          | EmptyString => String c (rstrip_u s1)
          end
      | EmptyString => String c (rstrip_u s1)
      end
  end.

(** [s.strip()] *)
Definition py_strip (s : string) : string := rstrip_u (lstrip_u s).

(** The whitespace character at the head of [s], if any, and the rest:
    the step that [lstrip_u] and [rstrip_u] take. *)
Definition ws_head (s : string) : option (string * string) :=
  match s with
  | EmptyString => None
  | String c s1 =>
      if is_space c then Some (String c "", s1) else
      match s1 with
      | String d s2 =>
          if ws2 c d then Some (String c (String d ""), s2) else
          match s2 with
          | String e s3 =>
              if ws3 c d e then Some (String c (String d (String e "")), s3) else None
          | EmptyString => None
          end
      | EmptyString => None
      end
  end.

(** A UTF-8 continuation byte, 80-BF. *)
Definition is_cont (c : ascii) : bool :=
  let n := nat_of_ascii c in (128 <=? n)%nat && (n <? 192)%nat.

Definition starts_cont (s : string) : bool :=
  match s with EmptyString => false | String c _ => is_cont c end.

Fixpoint lstrip_by (p : ascii -> bool) (s : string) : string :=
  match s with
  | EmptyString => EmptyString
  | String c s' => if p c then lstrip_by p s' else s
  end.

Fixpoint rstrip_by (p : ascii -> bool) (s : string) : string :=
  match s with
  | EmptyString => EmptyString
  | String c s' =>
      let r := rstrip_by p s' in
      if p c && String.eqb r "" then "" else String c r
  end.

(** [s.strip(chars)] for ASCII characters [chars], selected by [p]. *)
Definition strip_by (p : ascii -> bool) (s : string) : string :=
  rstrip_by p (lstrip_by p s).

(** [s.strip(quotes)] with the two quote characters (ASCII 34 and 39). *)
Definition is_quote (c : ascii) : bool :=
  Ascii.eqb c (ascii_of_nat 34) || Ascii.eqb c (ascii_of_nat 39).

Definition strip_quotes (s : string) : string := strip_by is_quote s.

(** [c in s] *)
Fixpoint contains (c : ascii) (s : string) : bool :=
  match s with
  | EmptyString => false
  | String c' s' => Ascii.eqb c c' || contains c s'
  end.

(** [s.split(c, 1)] when [c in s]: the text before the first [c] and
    the text after it. *)
Fixpoint split_first (c : ascii) (s : string) : string * string :=
  match s with
  | EmptyString => ("", "")
  | String c' s' =>
      if Ascii.eqb c c' then ("", s')
      else let (a, b) := split_first c s' in (String c' a, b)
  end.

(** [s.startswith(p)] *)
Definition startswith (p s : string) : bool := String.prefix p s.

(** ** Python values, exceptions and console lines *)

(** Values produced by [json.loads]. *)
Inductive json : Type :=
| JStr (s : string)
| JNum (n : Z)
| JBool (b : bool)
| JNull
| JArr (items : list json)
| JObj (fields : list (string * json)).

(** [dict[k]] on a dict built by [json.loads]: the last binding wins. *)
Fixpoint obj_lookup (k : string) (fs : list (string * json)) : option json :=
  match fs with
  | [] => None
  | (k', v) :: fs' =>
      match obj_lookup k fs' with
      | Some v' => Some v'
      | None => if String.eqb k k' then Some v else None
      end
  end.

Inductive exn : Type :=
| URLError (reason : string)
| HTTPError (code : Z) (msg : string)   (** subclass of [URLError] *)
| SystemExit (code : Z)                  (** a [BaseException] only *)
| Error (cls msg : string).              (** any other [Exception] *)

Definition is_urlerror (e : exn) : bool :=
  match e with URLError _ | HTTPError _ _ => true | _ => false end.

(** [except Exception] catches everything but [SystemExit]. *)
Definition is_exception (e : exn) : bool :=
  match e with SystemExit _ => false | _ => true end.

(** Return values of [verify_jenkins_api]. *)
Inductive pyval : Type := PyNone | PyBool (b : bool).

Definition truthy (v : pyval) : bool :=
  match v with PyNone => false | PyBool b => b end.

(** A printed line: the literal text and the [str()] of the values that
    an f-string interpolates. *)
Inductive piece : Type :=
| Txt (s : string)
| Int (z : Z)
| Val (j : json)
| Exn (e : exn).

Definition line := list piece.

(** ** The world the script runs in *)

(** What [open(env_path)] finds: no file ([env_path.exists()] is
    false); a file whose [open] raises an exception of class [cls]
    (permissions, a directory); or the lines that [for line in f] yields,
    then possibly an exception raised while reading further (a decoding
    error). *)
Inductive env_file : Type :=
| Missing
| OpenFails (cls msg : string)
| Lines (ls : list string) (read_error : option (string * string)).

Inductive method : Type := GET | POST.

(** A request as [urllib.request.Request] holds it. *)
Record request : Type := mkRequest {
  rq_url : string;
  rq_method : method;
  rq_headers : list (string * json);
  rq_data : option string
}.

(** The credentials of the installed opener's password manager:
    (url, user, password). *)
Definition creds := (string * string * string)%type.

Record body : Type := mkBody {
  body_text : option string;   (** [.read().decode()] *)
  body_json : option json      (** [json.loads] of that text *)
}.

(** How the opener chain ends for a request: the connection fails
    ([URLError]); the final reply, after the Basic auth retry and the
    redirects, with its status; or an exception of class [cls] that is
    not a [URLError] escapes the chain. *)
Inductive reply : Type :=
| Unreachable (reason : string)
| Reply (status : Z) (msg : string) (b : body)
| Fails (cls msg : string).

Record response : Type := mkResponse { status : Z; resp_body : body }.

Record world : Type := mkWorld {
  w_env : string -> option string;                 (** [os.environ] *)
  w_file : env_file;                               (** [jenkins.env] *)
  w_server : option creds -> request -> reply;     (** Jenkins *)
  w_opener : option creds;                         (** [install_opener] *)
  w_out : list line;                               (** stdout *)
  w_calls : list (request * option creds)          (** requests sent *)
}.

Definition env_update (e : string -> option string) (k v : string)
  : string -> option string :=
  fun k' => if String.eqb k' k then Some v else e k'.

Definition set_env (k v : string) (w : world) : world :=
  mkWorld (env_update (w_env w) k v) (w_file w) (w_server w) (w_opener w)
          (w_out w) (w_calls w).

Definition set_opener (c : creds) (w : world) : world :=
  mkWorld (w_env w) (w_file w) (w_server w) (Some c) (w_out w) (w_calls w).

(** [w] after printing [ls] and sending [cs]. *)
Definition extend (w : world) (ls : list line) (cs : list (request * option creds))
  : world :=
  mkWorld (w_env w) (w_file w) (w_server w) (w_opener w)
          (w_out w ++ ls)%list (w_calls w ++ cs)%list.

(** ** The Python state/exception monad *)

Inductive result (A : Type) : Type :=
| Ok (a : A)
| Raise (e : exn).
Arguments Ok {A} a.
Arguments Raise {A} e.

Definition Py (A : Type) : Type := world -> result A * world.

Definition ret {A} (a : A) : Py A := fun w => (Ok a, w).

Definition raise {A} (e : exn) : Py A := fun w => (Raise e, w).

Definition bind {A B} (m : Py A) (k : A -> Py B) : Py B :=
  fun w => match m w with
           | (Ok a, w') => k a w'
           | (Raise e, w') => (Raise e, w')
           end.

Notation "x <- m ;; k" := (bind m (fun x => k))
  (at level 61, m at next level, right associativity).
Notation "m ;; k" := (bind m (fun _ => k))
  (at level 61, right associativity).

(** [try: m except ...]: [h e] is the handler that matches [e], if any. *)
Definition try_except {A} (m : Py A) (h : exn -> option (Py A)) : Py A :=
  fun w => match m w with
           | (Raise e, w') =>
               match h e with Some k => k w' | None => (Raise e, w') end
           | r => r
           end.

Definition print (l : line) : Py unit := fun w => (Ok tt, extend w [l] []).

(** A step that does not touch the world. *)
Definition lift {A} (r : result A) : Py A := fun w => (r, w).

(** [os.environ[k] = v]: [putenv] refuses a NUL character (ValueError)
    and an empty name (OSError, EINVAL). *)
Definition setenv (k v : string) : Py unit :=
  if contains (ascii_of_nat 0) k || contains (ascii_of_nat 0) v
  then raise (Error "ValueError" "embedded null byte")
  else if String.eqb k ""
  then raise (Error "OSError" "[Errno 22] Invalid argument")
  else fun w => (Ok tt, set_env k v w).

(** [os.getenv(k)] *)
Definition getenv (k : string) : Py (option string) :=
  fun w => (Ok (w_env w k), w).

(** [env_path.exists()] *)
Definition path_exists : Py bool :=
  fun w => (Ok (match w_file w with Missing => false | _ => true end), w).

(** [with open(env_path, 'r') as f]: the lines and a late read error. *)
Definition open_env_file : Py (list string * option (string * string)) :=
  fun w => match w_file w with
           | Missing => (Raise (Error "FileNotFoundError" ""), w)
           | OpenFails cls msg => (Raise (Error cls msg), w)
           | Lines ls err => (Ok (ls, err), w)
           end.

(** [urllib.request.urlopen(rq)] through the installed opener. *)
Definition urlopen (rq : request) : Py response :=
  fun w =>
    let w' := extend w [] [(rq, w_opener w)] in
    match w_server w (w_opener w) rq with
    | Unreachable reason => (Raise (URLError reason), w')
    | Reply code msg b =>
        if (200 <=? code) && (code <? 300)
        then (Ok (mkResponse code b), w')
        else (Raise (HTTPError code msg), w')
    | Fails cls msg => (Raise (Error cls msg), w')
    end.

(** [urllib.request.install_opener(build_opener(auth_handler, ...))] *)
Definition install_opener (c : creds) : Py unit :=
  fun w => (Ok tt, set_opener c w).

Fixpoint for_each {A} (xs : list A) (f : A -> Py unit) : Py unit :=
  match xs with
  | [] => ret tt
  | x :: xs' => f x ;; for_each xs' f
  end.

(** ** load_env *)

(** The key and value a line of the file yields, if any:
    [line = line.strip()], then
    [if line and not line.startswith('#') and '=' in line]. *)
Definition parse_line (raw : string) : option (string * string) :=
  let l := py_strip raw in
  if negb (String.eqb l "") && negb (startswith "#" l)
     && contains "=" l
  then let (key, value) := split_first "=" l in
       Some (py_strip key, strip_quotes (py_strip value))
  else None.

(** The body of the [for line in f] loop. *)
Definition process_line (raw : string) : Py unit :=
  match parse_line raw with
  | Some (key, value) => setenv key value
  | None => ret tt
  end.

Definition load_env (env_path : string) : Py bool :=
  print [Txt "Loading environment from: "; Txt env_path] ;;
  ex <- path_exists ;;
  if negb ex then
    print [Txt "⛔ ERROR: Environment file not found at "; Txt env_path] ;;
    print [Txt "Please run '01-setup-jenkins.sh' first."] ;;
    ret false
  else
    f <- open_env_file ;;
    for_each (fst f) process_line ;;
    match snd f with
    | Some (cls, msg) => raise (Error cls msg)
    | None => ret true
    end.

(** ** verify_jenkins_api *)

Definition JENKINS_URL : string := "https://jenkins:10400".
Definition JENKINS_USER : string := "admin".

(** [urllib.parse.urlencode({'script': groovy_script})] for
    [groovy_script = "return jenkins.model.Jenkins.get().getSystemMessage()"]. *)
Definition script_data : string :=
  "script=return+jenkins.model.Jenkins.get%28%29.getSystemMessage%28%29".

(** [body.decode()] *)
Definition decode (b : body) : result string :=
  match body_text b with
  | Some s => Ok s
  | None => Raise (Error "UnicodeDecodeError" "")
  end.

(** [json.loads(body.decode())] *)
Definition loads (b : body) : result json :=
  match decode b with
  | Ok _ =>
      match body_json b with
      | Some j => Ok j
      | None => Raise (Error "JSONDecodeError" "")
      end
  | Raise e => Raise e
  end.

(** [d[k]] *)
Definition lookup_item (d : json) (k : string) : result json :=
  match d with
  | JObj fs =>
      match obj_lookup k fs with
      | Some v => Ok v
      | None => Raise (Error "KeyError" k)
      end
  | _ => Raise (Error "TypeError" "object is not subscriptable")
  end.

(** [response.read().decode()] *)
Definition read_text (r : response) : Py string := lift (decode (resp_body r)).

(** [json.loads(response.read().decode())] *)
Definition read_json (r : response) : Py json := lift (loads (resp_body r)).

Definition getitem (d : json) (k : string) : Py json := lift (lookup_item d k).

(** How the crumb [try] block (lines 65-82) ends: a [return] from the
    function, or falling through with [crumb] and [crumb_header] bound. *)
Inductive crumb_step : Type :=
| Returned (v : pyval)
| Got (crumb crumb_header : json).

Definition fetch_crumb (crumb_url : string) : Py crumb_step :=
  try_except
    (response <- urlopen (mkRequest crumb_url GET [] None) ;;
     if negb (status response =? 200) then
       print [Txt "⛔ ERROR: Failed to get crumb. Status: "; Int (status response)] ;;
       ret (Returned (PyBool false))
     else
       crumb_data <- read_json response ;;
       crumb <- getitem crumb_data "crumb" ;;
       crumb_header <- getitem crumb_data "crumbRequestField" ;;
       print [Txt "✅ Success! Got CSRF crumb: "; Val crumb] ;;
       ret (Got crumb crumb_header))
    (fun e =>
       if is_urlerror e then
         Some (print [Txt "⛔ ERROR: Connection failed. Did you add '127.0.0.1 jenkins' to /etc/hosts?"] ;;
               print [Txt "   Details: "; Exn e] ;;
               ret (Returned (PyBool false)))
       else if is_exception e then
         Some (print [Txt "⛔ ERROR: An unknown error occurred: "; Exn e] ;;
               ret (Returned (PyBool false)))
       else None).

(** [d[k] = v] on a dict with string keys. *)
Definition dict_set {V} (k : string) (v : V) (d : list (string * V))
  : list (string * V) :=
  if existsb (fun kv => String.eqb (fst kv) k) d
  then map (fun kv => if String.eqb (fst kv) k then (k, v) else kv) d
  else (d ++ [(k, v)])%list.

(** The dict [headers = {crumb_header: crumb, 'Content-Type': ...}] of
    lines 94-97.  [Request] files each name under [name.capitalize()]
    and [do_open] sends it as [name.title()]; those renamings happen
    inside the opener chain and belong to [w_server]. *)
Definition post_headers (h : string) (crumb : json) : list (string * json) :=
  dict_set "Content-Type" (JStr "application/x-www-form-urlencoded") [(h, crumb)].

Definition script_request (script_url : string) (h : string) (crumb : json)
  : request :=
  mkRequest script_url POST (post_headers h crumb) (Some script_data).

(** Lines 94-99, outside any [try]: the dict literal hashes
    [crumb_header] (a list or dict raises TypeError), then
    [Request.__init__] calls [key.capitalize()] (a key that is not a
    string raises AttributeError). *)
Definition build_post_request (script_url : string) (crumb_header crumb : json)
  : Py request :=
  match crumb_header with
  | JStr h => ret (script_request script_url h crumb)
  | JArr _ | JObj _ => raise (Error "TypeError" "unhashable type")
  | _ => raise (Error "AttributeError" "object has no attribute 'capitalize'")
  end.

(** The script [try] block, lines 101-113. *)
Definition call_script (req : request) : Py unit :=
  try_except
    (response <- urlopen req ;;
     if status response =? 200 then
       result <- read_text response ;;
       print [Txt "✅✅✅ Jenkins Verification SUCCESS! ✅✅✅"] ;;
       print [Txt "Authenticated API call returned: "; Txt result]
     else
       print [Txt "⛔ ERROR: API call failed. Status: "; Int (status response)] ;;
       text <- read_text response ;;
       print [Txt "   Response: "; Txt text])
    (fun e =>
       if is_exception e then
         Some (print [Txt "⛔ ERROR: API call failed."] ;;
               print [Txt "   Details: "; Exn e])
       else None).

(** Lines 46-62: SSL context, password manager, [install_opener]. *)
Definition verify_setup (base_url username password : string) : Py unit :=
  print [Txt "Creating default SSL context..."] ;;
  install_opener (base_url, username, password) ;;
  print [Txt "Connecting to "; Txt base_url; Txt " to fetch CSRF crumb..."].

Definition crumb_url (base_url : string) : string :=
  base_url ++ "/crumbIssuer/api/json".

Definition script_url (base_url : string) : string :=
  base_url ++ "/scriptText".

Definition verify_jenkins_api (base_url username password : string) : Py pyval :=
  verify_setup base_url username password ;;
  step <- fetch_crumb (crumb_url base_url) ;;
  match step with
  | Returned v => ret v
  | Got crumb crumb_header =>
      print [Txt "Attempting authenticated API call (Groovy script)..."] ;;
      req <- build_post_request (script_url base_url) crumb_header crumb ;;
      call_script req ;;
      ret PyNone
  end.

(** ** Main execution *)

(** [not JENKINS_PASSWORD] *)
Definition str_falsy (s : option string) : bool :=
  match s with None => true | Some p => String.eqb p "" end.

Definition main (env_path : string) : Py unit :=
  ok <- load_env env_path ;;
  if negb ok then raise (SystemExit 1) else
  pw <- getenv "JENKINS_ADMIN_PASSWORD" ;;
  if str_falsy pw then
    print [Txt "⛔ ERROR: JENKINS_ADMIN_PASSWORD not found in 'jenkins.env'"] ;;
    raise (SystemExit 1)
  else
    verify_jenkins_api JENKINS_URL JENKINS_USER
                       (match pw with Some p => p | None => "" end) ;;
    ret tt.

(** The process exit status: 0 when [main] returns, the code of
    [SystemExit], and 1 for an uncaught exception (traceback). *)
Definition exit_status {A} (r : result A) : Z :=
  match r with
  | Ok _ => 0
  | Raise (SystemExit n) => n
  | Raise _ => 1
  end.

(** ** The two [try] blocks as functions of the server's reply *)

(** The [URLError] ([HTTPError] included) [urlopen] raises for a reply,
    if any. *)
Definition urlopen_error (r : reply) : option exn :=
  match r with
  | Unreachable reason => Some (URLError reason)
  | Reply code msg _ =>
      if (200 <=? code) && (code <? 300) then None
      else Some (HTTPError code msg)
  | Fails _ _ => None
  end.

Definition hint_line : line :=
  [Txt "⛔ ERROR: Connection failed. Did you add '127.0.0.1 jenkins' to /etc/hosts?"].

Definition setup_lines (base_url : string) : list line :=
  [[Txt "Creating default SSL context..."];
   [Txt "Connecting to "; Txt base_url; Txt " to fetch CSRF crumb..."]].

Definition attempt_line : line :=
  [Txt "Attempting authenticated API call (Groovy script)..."].

(** Lines 71-73 on a body. *)
Definition crumb_fields (b : body) : result (json * json) :=
  match loads b with
  | Ok d =>
      match lookup_item d "crumb" with
      | Ok c =>
          match lookup_item d "crumbRequestField" with
          | Ok h => Ok (c, h)
          | Raise e => Raise e
          end
      | Raise e => Raise e
      end
  | Raise e => Raise e
  end.

(** A successful crumb fetch: status 200 and both fields read. *)
Definition crumb_ok (r : reply) : option (json * json) :=
  match r with
  | Reply code _ b =>
      if code =? 200 then
        match crumb_fields b with Ok ch => Some ch | Raise _ => None end
      else None
  | Unreachable _ | Fails _ _ => None
  end.

(** How the crumb block ends and what it prints, for a reply. *)
Definition crumb_report (r : reply) : crumb_step * list line :=
  match r with
  | Unreachable reason =>
      (Returned (PyBool false), [hint_line; [Txt "   Details: "; Exn (URLError reason)]])
  | Reply code msg b =>
      if (200 <=? code) && (code <? 300) then
        if negb (code =? 200) then
          (Returned (PyBool false),
           [[Txt "⛔ ERROR: Failed to get crumb. Status: "; Int code]])
        else
          match crumb_fields b with
          | Ok (c, h) => (Got c h, [[Txt "✅ Success! Got CSRF crumb: "; Val c]])
          | Raise e =>
              (Returned (PyBool false),
               [[Txt "⛔ ERROR: An unknown error occurred: "; Exn e]])
          end
      else
        (Returned (PyBool false),
         [hint_line; [Txt "   Details: "; Exn (HTTPError code msg)]])
  | Fails cls msg =>
      (Returned (PyBool false),
       [[Txt "⛔ ERROR: An unknown error occurred: "; Exn (Error cls msg)]])
  end.

Definition failed_lines (e : exn) : list line :=
  [[Txt "⛔ ERROR: API call failed."]; [Txt "   Details: "; Exn e]].

(** What the script block prints, for a reply. *)
Definition script_report (r : reply) : list line :=
  match r with
  | Unreachable reason => failed_lines (URLError reason)
  | Reply code msg b =>
      if (200 <=? code) && (code <? 300) then
        if code =? 200 then
          match decode b with
          | Ok s =>
              [[Txt "✅✅✅ Jenkins Verification SUCCESS! ✅✅✅"];
               [Txt "Authenticated API call returned: "; Txt s]]
          | Raise e => failed_lines e
          end
        else
          [Txt "⛔ ERROR: API call failed. Status: "; Int code]
            :: match decode b with
               | Ok s => [[Txt "   Response: "; Txt s]]
               | Raise e => failed_lines e
               end
      else failed_lines (HTTPError code msg)
  | Fails cls msg => failed_lines (Error cls msg)
  end.

(** An error report: a line whose text starts with the error marker. *)
Definition is_error_line (l : line) : bool :=
  match l with
  | Txt s :: _ => startswith "⛔ ERROR" s
  | _ => false
  end.

Definition is_jstr (j : json) : bool :=
  match j with JStr _ => true | _ => false end.

(** A key and a value [os.environ] accepts. *)
Definition valid_entry (k v : string) : bool :=
  negb (String.eqb k "") && negb (contains (ascii_of_nat 0) k)
  && negb (contains (ascii_of_nat 0) v).

(** The value of [k] after the lines [ls], in file order, starting
    from [d]: each parsed line with key [k] replaces it. *)
Definition last_value (k : string) (ls : list string) (d : option string)
  : option string :=
  fold_left (fun acc l =>
               match parse_line l with
               | Some (k', v) => if String.eqb k' k then Some v else acc
               | None => acc
               end) ls d.

(** The files on which [load_env] raises: [open] fails, reading fails,
    or a parsed line has a key or value that [os.environ] refuses. *)
Definition load_fails (f : env_file) : Prop :=
  match f with
  | Missing => False
  | OpenFails _ _ => True
  | Lines ls err =>
      err <> None
      \/ exists l k v, In l ls /\ parse_line l = Some (k, v) /\ valid_entry k v = false
  end.

Definition PASSWORD_KEY : string := "JENKINS_ADMIN_PASSWORD".

Definition loading_line (env_path : string) : line :=
  [Txt "Loading environment from: "; Txt env_path].

Definition missing_lines (env_path : string) : list line :=
  [[Txt "⛔ ERROR: Environment file not found at "; Txt env_path];
   [Txt "Please run '01-setup-jenkins.sh' first."]].

Definition no_password_line : line :=
  [Txt "⛔ ERROR: JENKINS_ADMIN_PASSWORD not found in 'jenkins.env'"].

(** ** Concrete runs *)

Definition dq : string := String (ascii_of_nat 34) EmptyString.

(** A JSON string literal as it appears in a body. *)
Definition jquote (s : string) : string := dq ++ s ++ dq.

(** The crumb issuer's answer, with the given [crumbRequestField]. *)
Definition crumb_body (field : json) (field_text : string) : body :=
  mkBody (Some ("{" ++ jquote "crumb" ++ ":" ++ jquote "abc" ++ ","
                ++ jquote "crumbRequestField" ++ ":" ++ field_text ++ "}"))
         (Some (JObj [("crumb", JStr "abc"); ("crumbRequestField", field)])).

(** A Jenkins that answers the crumb GET with [crumb_reply] and the
    script POST with [script_reply]. *)
Definition jenkins (crumb_reply script_reply : reply)
  : option creds -> request -> reply :=
  fun _ rq => match rq_method rq with
              | GET => crumb_reply
              | POST => script_reply
              end.

Definition good_crumb : reply :=
  Reply 200 "OK" (crumb_body (JStr "Jenkins-Crumb") (jquote "Jenkins-Crumb")).

Definition text_body (s : string) : body := mkBody (Some s) None.

Definition world0 (file : env_file) (server : option creds -> request -> reply)
  : world :=
  mkWorld (fun _ => None) file server None [] [].

Definition env_path0 : string := "/home/user/jenkins.env".

Definition pw_file : env_file := Lines ["JENKINS_ADMIN_PASSWORD=secret"] None.

(** The crumb issuer answers with a number as [crumbRequestField]. *)
Definition numeric_field_world : world :=
  world0 pw_file
    (jenkins (Reply 200 "OK" (crumb_body (JNum 7) "7"))
             (Reply 200 "OK" (text_body "Welcome"))).

(** The script endpoint cannot be reached after a good crumb fetch. *)
Definition post_unreachable_world : world :=
  world0 pw_file (jenkins good_crumb (Unreachable "Name or service not known")).

(** The script endpoint answers 500 with a body. *)
Definition script_500_world : world :=
  world0 pw_file
    (jenkins good_crumb (Reply 500 "Internal Server Error" (text_body "boom"))).

(** The script endpoint answers 200 with the body Welcome. *)
Definition welcome_world : world :=
  world0 pw_file (jenkins good_crumb (Reply 200 "OK" (text_body "Welcome"))).

(** No environment file. *)
Definition missing_world : world := world0 Missing (jenkins good_crumb good_crumb).

(** A file that sets A twice. *)
Definition dup_world : world :=
  world0 (Lines ["A=1"; "B=2"; "A=3"] None) (jenkins good_crumb good_crumb).

(** A file with a line that has no [=]. *)
Definition text_line_world : world :=
  world0 (Lines ["JUSTTEXT"; "A=1"] None) (jenkins good_crumb good_crumb).

(** A file whose only line has an empty key. *)
Definition empty_key_world : world :=
  world0 (Lines ["=value"] None) (jenkins good_crumb good_crumb).

(** The password comes from the process environment, not the file. *)
Definition inherited_world : world :=
  mkWorld (fun k => if String.eqb k "JENKINS_ADMIN_PASSWORD" then Some "fromenv" else None)
          (Lines ["OTHER=1"] None)
          (jenkins good_crumb (Reply 200 "OK" (text_body "Welcome"))) None [] [].

(** The crumb issuer answers 200 without a [crumb] field. *)
Definition no_crumb_body : body := mkBody (Some "{}") (Some (JObj [])).

(** The crumb issuer answers 503. *)
Definition crumb_503_world : world :=
  world0 pw_file (jenkins (Reply 503 "Service Unavailable" (text_body "down")) good_crumb).

(** The crumb issuer answers 204. *)
Definition crumb_204_world : world :=
  world0 pw_file (jenkins (Reply 204 "No Content" (text_body "")) good_crumb).

(** The crumb issuer answers 200 without a [crumb] field. *)
Definition no_crumb_world : world :=
  world0 pw_file (jenkins (Reply 200 "OK" no_crumb_body) good_crumb).

(** The crumb GET a run sends when the password is [pw]. *)
Definition pw_request (pw : string) : option creds * request :=
  (Some (JENKINS_URL, JENKINS_USER, pw), mkRequest (crumb_url JENKINS_URL) GET [] None).

(** U+00A0, the no-break space, in UTF-8. *)
Definition nbsp : string := String (ascii_of_nat 194) (String (ascii_of_nat 160) EmptyString).

(** ** Edges of a string *)

(** The last character, if any. *)
Fixpoint last_char (s : string) : option ascii :=
  match s with
  | EmptyString => None
  | String c EmptyString => Some c
  | String _ s' => last_char s'
  end.

(** The first character, if any, is not selected by [p]. *)
Definition first_ok (p : ascii -> bool) (s : string) : bool :=
  match s with EmptyString => true | String c _ => negb (p c) end.

(** The last character, if any, is not selected by [p]. *)
Definition last_ok (p : ascii -> bool) (s : string) : bool :=
  match last_char s with None => true | Some c => negb (p c) end.

(** Every character is selected by [p]. *)
Fixpoint all_chars (p : ascii -> bool) (s : string) : bool :=
  match s with EmptyString => true | String c s' => p c && all_chars p s' end.

(** ** Structure of a run *)

Ltac world_eq :=
  unfold extend, set_opener; cbn;
  rewrite ?app_nil_r, <- ?app_assoc; reflexivity.

Lemma extend_extend w l1 c1 l2 c2 :
  extend (extend w l1 c1) l2 c2 = extend w (l1 ++ l2) (c1 ++ c2).
Proof. destruct w; world_eq. Qed.

Lemma extend_nil w : extend w [] [] = w.
Proof. destruct w; world_eq. Qed.

Lemma loads_error b e : loads b = Raise e -> exists c m, e = Error c m.
Proof.
  unfold loads, decode.
  destruct (body_text b); [destruct (body_json b) |]; intros H; inversion H; eauto.
Qed.

Lemma lookup_item_error d k e : lookup_item d k = Raise e -> exists c m, e = Error c m.
Proof.
  unfold lookup_item.
  destruct d; try (intros H; inversion H; eauto; fail).
  destruct (obj_lookup k fields); intros H; inversion H; eauto.
Qed.

Lemma decode_error b e : decode b = Raise e -> exists c m, e = Error c m.
Proof. unfold decode. destruct (body_text b); intros H; inversion H; eauto. Qed.

Ltac error_case L lem :=
  destruct (lem _ _ _ L) as (? & ? & ->) || destruct (lem _ _ L) as (? & ? & ->);
  world_eq.

Lemma fetch_crumb_spec url w :
  fetch_crumb url w =
    (Ok (fst (crumb_report (w_server w (w_opener w) (mkRequest url GET [] None)))),
     extend w (snd (crumb_report (w_server w (w_opener w) (mkRequest url GET [] None))))
            [(mkRequest url GET [] None, w_opener w)]).
Proof.
  destruct w as [env file srv op out calls]; cbn.
  unfold fetch_crumb, try_except, bind, urlopen, print, ret, lift,
    read_json, getitem; cbn.
  destruct (srv op _) as [reason | code msg b | cls msg]; cbn; [world_eq | | world_eq].
  destruct ((200 <=? code) && (code <? 300)) eqn:E; cbn; [| world_eq].
  destruct (code =? 200) eqn:E2; cbn; [| world_eq].
  unfold crumb_fields.
  destruct (loads b) as [d | e] eqn:L; cbn; [| error_case L loads_error].
  destruct (lookup_item d "crumb") as [c | e] eqn:L1; cbn;
    [| error_case L1 lookup_item_error].
  destruct (lookup_item d "crumbRequestField") as [h | e] eqn:L2; cbn;
    [world_eq | error_case L2 lookup_item_error].
Qed.

Lemma call_script_spec req w :
  call_script req w =
    (Ok tt, extend w (script_report (w_server w (w_opener w) req))
                   [(req, w_opener w)]).
Proof.
  destruct w as [env file srv op out calls]; cbn.
  unfold call_script, try_except, bind, urlopen, print, ret, lift, read_text; cbn.
  destruct (srv op req) as [reason | code msg b | cls msg]; cbn; [world_eq | | world_eq].
  destruct ((200 <=? code) && (code <? 300)) eqn:E; cbn; [| world_eq].
  destruct (code =? 200) eqn:E2; cbn;
    (destruct (decode b) as [t | e] eqn:L; cbn; [world_eq | error_case L decode_error]).
Qed.

Lemma verify_setup_spec b u p w :
  verify_setup b u p w =
    (Ok tt, extend (set_opener (b, u, p) w) (setup_lines b) []).
Proof. destruct w; unfold verify_setup, bind, print, install_opener; world_eq. Qed.

Lemma verify_spec b u p w st ls :
  crumb_report (w_server w (Some (b, u, p)) (mkRequest (crumb_url b) GET [] None))
    = (st, ls) ->
  verify_jenkins_api b u p w =
    let c := Some (b, u, p) in
    let w1 := extend (set_opener (b, u, p) w) (setup_lines b) [] in
    let rq := mkRequest (crumb_url b) GET [] None in
    match st with
    | Returned v => (Ok v, extend w1 ls [(rq, c)])
    | Got cr h =>
        match h with
        | JStr hs =>
            let rq2 := script_request (script_url b) hs cr in
            (Ok PyNone,
             extend w1 (ls ++ attempt_line :: script_report (w_server w c rq2))
                    [(rq, c); (rq2, c)])
        | JArr _ | JObj _ =>
            (Raise (Error "TypeError" "unhashable type"),
             extend w1 (ls ++ [attempt_line]) [(rq, c)])
        | _ =>
            (Raise (Error "AttributeError" "object has no attribute 'capitalize'"),
             extend w1 (ls ++ [attempt_line]) [(rq, c)])
        end
    end.
Proof.
  intros H.
  unfold verify_jenkins_api.
  unfold bind at 1. rewrite verify_setup_spec.
  unfold bind at 1. rewrite fetch_crumb_spec.
  replace (w_server (extend (set_opener (b, u, p) w) (setup_lines b) []))
    with (w_server w) by (destruct w; reflexivity).
  replace (w_opener (extend (set_opener (b, u, p) w) (setup_lines b) []))
    with (Some (b, u, p)) by (destruct w; reflexivity).
  rewrite H. cbn [fst snd].
  destruct st as [v | cr h]; [unfold ret; reflexivity |].
  unfold bind, print; cbn [fst snd].
  destruct h; unfold build_post_request, ret, raise;
    try (rewrite extend_extend; reflexivity).
  rewrite call_script_spec.
  destruct w; world_eq.
Qed.

(** ** load_env *)

Lemma setenv_spec k v w :
  setenv k v w =
    if valid_entry k v then (Ok tt, set_env k v w)
    else (Raise (if contains (ascii_of_nat 0) k || contains (ascii_of_nat 0) v
                 then Error "ValueError" "embedded null byte"
                 else Error "OSError" "[Errno 22] Invalid argument"), w).
Proof.
  unfold setenv, valid_entry.
  destruct (contains (ascii_of_nat 0) k), (contains (ascii_of_nat 0) v),
    (String.eqb k ""); reflexivity.
Qed.

Lemma for_each_skip {A} (f : A -> Py unit) (x : A) pre post :
  (forall w, f x w = (Ok tt, w)) ->
  forall w, for_each (pre ++ x :: post) f w = for_each (pre ++ post) f w.
Proof.
  intros Hx. induction pre as [| y pre IH]; intros w; cbn; unfold bind.
  - rewrite Hx. reflexivity.
  - destruct (f y w) as [[a | e] w']; [apply IH | reflexivity].
Qed.

(** The loop changes only [os.environ]; it raises exactly on a refused
    entry, and otherwise leaves each key at its last value. *)
Lemma for_each_lines ls w :
  let (r, w') := for_each ls process_line w in
  w' = mkWorld (w_env w') (w_file w) (w_server w) (w_opener w) (w_out w) (w_calls w)
  /\ match r with
     | Ok _ =>
         (forall l k v, In l ls -> parse_line l = Some (k, v) -> valid_entry k v = true)
         /\ forall k, w_env w' k = last_value k ls (w_env w k)
     | Raise e =>
         (exists c m, e = Error c m)
         /\ exists l k v, In l ls /\ parse_line l = Some (k, v) /\ valid_entry k v = false
     end.
Proof.
  revert w; induction ls as [| l ls IH]; intros w.
  - cbn. split; [destruct w; reflexivity |].
    split; [tauto | reflexivity].
  - change (for_each (l :: ls) process_line w)
      with (bind (process_line l) (fun _ => for_each ls process_line) w).
    unfold bind at 1, process_line at 1.
    destruct (parse_line l) as [[k v] |] eqn:P.
    + rewrite setenv_spec.
      destruct (valid_entry k v) eqn:V.
      * specialize (IH (set_env k v w)).
        destruct (for_each ls process_line (set_env k v w)) as [r w'].
        destruct IH as [Hw Hr]. split; [exact Hw |].
        destruct r as [a | e].
        -- destruct Hr as [Hv Hk]. split.
           ++ intros l' k' v' [<- | Hin] Hp; [congruence | eauto].
           ++ intros k'. rewrite Hk. unfold last_value at 2; cbn [fold_left].
              rewrite P. unfold set_env, env_update; cbn [w_env].
              rewrite String.eqb_sym. destruct (String.eqb k k'); reflexivity.
        -- destruct Hr as [He (l' & k' & v' & Hin & Hp & Hv)].
           split; [exact He |]. exists l', k', v'. split; [right; exact Hin | auto].
      * split; [destruct w; reflexivity |].
        split.
        -- destruct (contains _ k || contains _ v); eauto.
        -- exists l, k, v. split; [left; reflexivity | auto].
    + specialize (IH w). unfold ret.
      destruct (for_each ls process_line w) as [r w'].
      destruct IH as [Hw Hr]. split; [exact Hw |].
      destruct r as [a | e].
      * destruct Hr as [Hv Hk]. split.
        -- intros l' k' v' [<- | Hin] Hp; [congruence | eauto].
        -- intros k'. rewrite Hk. unfold last_value at 2; cbn [fold_left].
           rewrite P. reflexivity.
      * destruct Hr as [He (l' & k' & v' & Hin & Hp & Hv)].
        split; [exact He |]. exists l', k', v'. split; [right; exact Hin | auto].
Qed.

Lemma load_env_result p w :
  let (r, w1) := load_env p w in
  w_server w1 = w_server w /\ w_calls w1 = w_calls w /\ w_opener w1 = w_opener w
  /\ match w_file w with
     | Missing => r = Ok false /\ w1 = extend w (loading_line p :: missing_lines p) []
     | _ =>
         match r with
         | Raise e => load_fails (w_file w) /\ exists c m, e = Error c m
         | Ok b =>
             b = true /\ ~ load_fails (w_file w)
             /\ exists ls, w_file w = Lines ls None
                           /\ forall k, w_env w1 k = last_value k ls (w_env w k)
         end
     end.
Proof.
  destruct w as [env file srv op out calls].
  destruct file as [| cls msg | ls err]; cbn [w_file].
  - cbn. repeat split; world_eq.
  - cbn. rewrite app_nil_r.
    refine (conj eq_refl (conj eq_refl (conj eq_refl (conj I _)))). eauto.
  - destruct err as [[cls msg] |];
      unfold load_env, bind, print, path_exists, open_env_file, ret, raise;
      cbn -[for_each process_line];
      match goal with
      | |- context [for_each ls process_line ?w0] =>
          pose proof (for_each_lines ls w0) as Hl;
          destruct (for_each ls process_line w0) as [r w1]
      end;
      destruct Hl as [Hw1 Hr]; rewrite Hw1; cbn;
      (destruct r as [a | e]; cbn;
       [destruct Hr as [Hv Hk] | destruct Hr as [(c & m & ->) Hex]]);
      refine (conj eq_refl (conj _ (conj eq_refl _)));
      try (rewrite app_nil_r; reflexivity).
    + split; [left; discriminate | eauto].
    + split; [left; discriminate | eauto].
    + split; [reflexivity |]. split.
      * intros [H | (l & k & v & Hin & Hp & Hval)]; [congruence |].
        rewrite (Hv l k v Hin Hp) in Hval. discriminate.
      * exists ls. split; [reflexivity |]. intros k. rewrite Hk. reflexivity.
    + split; [right; exact Hex | eauto].
Qed.

Lemma main_spec p w :
  main p w =
    match load_env p w with
    | (Ok false, w1) => (Raise (SystemExit 1), w1)
    | (Raise e, w1) => (Raise e, w1)
    | (Ok true, w1) =>
        if str_falsy (w_env w1 PASSWORD_KEY) then
          (Raise (SystemExit 1), extend w1 [no_password_line] [])
        else
          match verify_jenkins_api JENKINS_URL JENKINS_USER
                  (match w_env w1 PASSWORD_KEY with Some q => q | None => "" end) w1 with
          | (Ok _, w2) => (Ok tt, w2)
          | (Raise e, w2) => (Raise e, w2)
          end
    end.
Proof.
  unfold main, bind, getenv, print, raise, ret, PASSWORD_KEY. cbn beta iota zeta.
  destruct (load_env p w) as [[[|] | e] w1]; cbn beta iota zeta delta [negb];
    [| reflexivity | reflexivity].
  cbn beta iota zeta. destruct (str_falsy (w_env w1 _)); [reflexivity |].
  destruct (verify_jenkins_api _ _ _ w1) as [[a | e] w2]; reflexivity.
Qed.

Lemma crumb_report_step r :
  match fst (crumb_report r) with
  | Got c h => crumb_ok r = Some (c, h)
  | Returned v =>
      v = PyBool false /\ crumb_ok r = None
      /\ existsb is_error_line (snd (crumb_report r)) = true
  end.
Proof.
  destruct r as [reason | code msg b | cls msg]; cbn; [auto | | auto].
  destruct ((200 <=? code) && (code <? 300)) eqn:E.
  - destruct (code =? 200) eqn:E2; cbn.
    + destruct (crumb_fields b) as [[c h] | e]; cbn; auto.
    + auto.
  - cbn. split; [reflexivity |]. split; [| reflexivity].
    destruct (code =? 200) eqn:E2; [| reflexivity].
    apply Z.eqb_eq in E2; subst; discriminate.
Qed.

(** ** C1: the exit status *)

(** C1 (amended).  The exit status is 0 or 1, and it is 1 exactly when
    the environment file is missing; when [load_env] raises (the file
    cannot be opened or read, or a parsed line has an empty key or a NUL
    character, which [os.environ] refuses); when JENKINS_ADMIN_PASSWORD
    is absent or empty after loading; or when the crumb fetch succeeds
    with a [crumbRequestField] that is not a string, so building the POST
    headers outside any [try] raises.  Every other run, whatever the
    crumb fetch and the script call do, exits with 0. *)
Theorem main_exit_status p w :
  let r := fst (main p w) in
  (exit_status r = 0 \/ exit_status r = 1) /\
  (exit_status r = 1 <->
     w_file w = Missing
     \/ load_fails (w_file w)
     \/ (exists ls, w_file w = Lines ls None /\ ~ load_fails (w_file w)
                   /\ str_falsy (last_value PASSWORD_KEY ls (w_env w PASSWORD_KEY)) = true)
     \/ (exists ls pw c h, w_file w = Lines ls None /\ ~ load_fails (w_file w)
           /\ last_value PASSWORD_KEY ls (w_env w PASSWORD_KEY) = Some pw /\ pw <> ""
           /\ crumb_ok (w_server w (fst (pw_request pw)) (snd (pw_request pw))) = Some (c, h)
           /\ is_jstr h = false)).
Proof.
  cbv zeta. rewrite main_spec.
  pose proof (load_env_result p w) as HL.
  destruct (load_env p w) as [r1 w1].
  destruct HL as (Hs & Hc & Ho & HL).
  destruct (w_file w) as [| cls msg | ls err] eqn:F.
  - destruct HL as [-> _]. cbn. split; [right; reflexivity | tauto].
  - destruct r1 as [b | e].
    + destruct HL as (_ & Hnf & _). exfalso; apply Hnf; exact I.
    + destruct HL as (Hf & c & m & ->). cbn. split; [right; reflexivity | tauto].
  - destruct r1 as [b | e].
    2: { destruct HL as (Hf & c & m & ->). cbn. split; [right; reflexivity | tauto]. }
    destruct HL as (-> & Hnf & ls' & Hls & Hk).
    injection Hls as -> ->. rewrite Hk.
    destruct (last_value PASSWORD_KEY ls' (w_env w PASSWORD_KEY)) as [q |] eqn:LV.
    2: { cbn. split; [right; reflexivity |].
         split; [intros _; right; right; left; exists ls'; rewrite LV; auto | tauto]. }
    destruct (String.eqb q "") eqn:Q.
    { cbn. rewrite Q. split; [right; reflexivity |].
      split; [intros _; right; right; left; exists ls'; rewrite LV; cbn; auto | tauto]. }
    cbn [str_falsy]. rewrite Q.
    assert (Hq : q <> "") by (intros ->; discriminate).
    pose proof (crumb_report_step (w_server w (fst (pw_request q)) (snd (pw_request q)))) as HS.
    destruct (crumb_report (w_server w (fst (pw_request q)) (snd (pw_request q))))
      as [st ls2] eqn:CR.
    rewrite <- Hs in CR.
    rewrite (verify_spec _ _ _ _ st ls2 CR). cbn [fst] in HS.
    assert (Hno : forall ls0 pw c h,
              Lines ls' None = Lines ls0 None ->
              last_value PASSWORD_KEY ls0 (w_env w PASSWORD_KEY) = Some pw ->
              crumb_ok (w_server w (fst (pw_request pw)) (snd (pw_request pw))) = Some (c, h) ->
              crumb_ok (w_server w (fst (pw_request q)) (snd (pw_request q))) = Some (c, h)).
    { intros ls0 pw c h Hl Hv Hc0. injection Hl as <-. rewrite LV in Hv.
      injection Hv as <-. exact Hc0. }
    assert (Hnot3 : ~ exists ls0, Lines ls' None = Lines ls0 None /\ ~ load_fails (Lines ls' None)
                       /\ str_falsy (last_value PASSWORD_KEY ls0 (w_env w PASSWORD_KEY)) = true).
    { intros (ls0 & Hl & _ & Hf). injection Hl as <-. rewrite LV in Hf.
      cbn in Hf. congruence. }
    destruct st as [v | c h].
    + destruct HS as (-> & HS & _). cbn.
      split; [left; reflexivity |]. split; [discriminate |].
      intros [H | [H | [H | (ls0 & pw & c & h & Hl & _ & Hv & _ & Hc0 & _)]]];
        [discriminate | contradiction | contradiction |].
      rewrite (Hno ls0 pw c h Hl Hv Hc0) in HS. discriminate.
    + destruct h as [hs | n | bb | | items | fields]; cbn.
      1: { split; [left; reflexivity |]. split; [discriminate |].
           intros [H | [H | [H | (ls0 & pw & c' & h' & Hl & _ & Hv & _ & Hc0 & Hj)]]];
             [discriminate | contradiction | contradiction |].
           rewrite (Hno ls0 pw c' h' Hl Hv Hc0) in HS. injection HS as _ ->.
           discriminate. }
      all: split; [right; reflexivity |];
           split; [intros _; right; right; right; eexists ls', q, c, _;
                   repeat split; eauto | tauto].
Qed.

(** C1 as stated fails: the file is there and the password is set after
    loading, yet the run exits with 1 (an AttributeError escapes from the
    header construction). *)
Lemma main_exit_status_claim_fails :
  w_file numeric_field_world <> Missing
  /\ w_env (snd (load_env env_path0 numeric_field_world)) PASSWORD_KEY = Some "secret"
  /\ exit_status (fst (main env_path0 numeric_field_world)) = 1.
Proof. split; [discriminate | split; vm_compute; reflexivity]. Qed.

(** ** verify_jenkins_api *)

Lemma verify_cases b u p w :
  let c := Some (b, u, p) in
  let rq := mkRequest (crumb_url b) GET [] None in
  let w1 := extend (set_opener (b, u, p) w) (setup_lines b) [] in
  (crumb_ok (w_server w c rq) = None
   /\ verify_jenkins_api b u p w
      = (Ok (PyBool false), extend w1 (snd (crumb_report (w_server w c rq))) [(rq, c)])
   /\ existsb is_error_line (snd (crumb_report (w_server w c rq))) = true)
  \/ (exists cr h, crumb_ok (w_server w c rq) = Some (cr, h)
      /\ crumb_report (w_server w c rq) = (Got cr h, [[Txt "✅ Success! Got CSRF crumb: "; Val cr]])
      /\ match h with
         | JStr hs =>
             let rq2 := script_request (script_url b) hs cr in
             verify_jenkins_api b u p w =
               (Ok PyNone,
                extend w1 ([Txt "✅ Success! Got CSRF crumb: "; Val cr] :: attempt_line
                           :: script_report (w_server w c rq2)) [(rq, c); (rq2, c)])
         | _ =>
             (exists cls m, fst (verify_jenkins_api b u p w) = Raise (Error cls m))
             /\ w_calls (snd (verify_jenkins_api b u p w)) = (w_calls w ++ [(rq, c)])%list
         end).
Proof.
  cbv zeta.
  pose proof (crumb_report_step (w_server w (Some (b, u, p)) (mkRequest (crumb_url b) GET [] None))) as HS.
  destruct (crumb_report (w_server w (Some (b, u, p)) (mkRequest (crumb_url b) GET [] None)))
    as [st ls] eqn:CR.
  rewrite (verify_spec _ _ _ _ st ls CR). cbn [fst snd] in HS |- *.
  destruct st as [v | cr h].
  - left. destruct HS as (-> & HS & He). auto.
  - right. exists cr, h. split; [exact HS |].
    assert (Hls : ls = [[Txt "✅ Success! Got CSRF crumb: "; Val cr]]).
    { revert CR HS. destruct (w_server w _ _) as [reason | code msg bd | cls m]; cbn;
        [intros H; discriminate | | intros H; discriminate].
      destruct ((200 <=? code) && (code <? 300)); [| intros H; discriminate].
      destruct (code =? 200); cbn; [| intros H; discriminate].
      destruct (crumb_fields bd) as [[c0 h0] | e]; intros H; inversion H; reflexivity. }
    subst ls. split; [reflexivity |].
    destruct h; cbn; eauto; (split; [eauto | destruct w; cbn; rewrite app_nil_r; reflexivity]).
Qed.

Lemma crumb_report_urlerror r e :
  urlopen_error r = Some e ->
  is_urlerror e = true
  /\ crumb_report r = (Returned (PyBool false), [hint_line; [Txt "   Details: "; Exn e]]).
Proof.
  destruct r as [reason | code msg b | cls msg]; cbn; intros H;
    [injection H as <-; auto | | discriminate].
  destruct ((200 <=? code) && (code <? 300)); [discriminate | injection H as <-; auto].
Qed.

Lemma script_report_urlerror r e :
  urlopen_error r = Some e -> is_urlerror e = true /\ script_report r = failed_lines e.
Proof.
  destruct r as [reason | code msg b | cls msg]; cbn; intros H;
    [injection H as <-; auto | | discriminate].
  destruct ((200 <=? code) && (code <? 300)); [discriminate | injection H as <-; auto].
Qed.

(** C2.  When the crumb GET does not succeed (non-200 status, connection
    error, another exception out of the opener, unreadable body or
    missing field), [verify_jenkins_api]
    prints an error report and returns False, and the only request it
    sends is the GET; a POST is sent only after a crumb fetch that
    yielded both the crumb and its header name, and it carries them. *)
Theorem crumb_failure_stops_before_post b u p w :
  let c := Some (b, u, p) in
  let rq := mkRequest (crumb_url b) GET [] None in
  (crumb_ok (w_server w c rq) = None ->
     fst (verify_jenkins_api b u p w) = Ok (PyBool false)
     /\ w_calls (snd (verify_jenkins_api b u p w)) = (w_calls w ++ [(rq, c)])%list
     /\ exists ls, w_out (snd (verify_jenkins_api b u p w)) = (w_out w ++ ls)%list
                   /\ existsb is_error_line ls = true)
  /\ exists new, w_calls (snd (verify_jenkins_api b u p w)) = (w_calls w ++ new)%list
     /\ forall rq2 c2, In (rq2, c2) new -> rq_method rq2 = POST ->
          exists cr h, crumb_ok (w_server w c rq) = Some (cr, JStr h)
                       /\ rq2 = script_request (script_url b) h cr.
Proof.
  cbv zeta.
  destruct (verify_cases b u p w) as [(Hn & Hv & He) | (cr & h & Hok & CR & Hh)].
  - rewrite Hv. cbn [fst snd]. split.
    + intros _. split; [reflexivity |].
      split; [destruct w; cbn; rewrite ?app_nil_r, <- ?app_assoc; reflexivity |].
      exists (setup_lines b
              ++ snd (crumb_report (w_server w (Some (b, u, p))
                                     (mkRequest (crumb_url b) GET [] None))))%list.
      split; [destruct w; cbn; rewrite ?app_nil_r, <- ?app_assoc; reflexivity |].
      rewrite existsb_app, He, orb_true_r. reflexivity.
    + exists [(mkRequest (crumb_url b) GET [] None, Some (b, u, p))]. split; [destruct w; cbn; rewrite ?app_nil_r, <- ?app_assoc; reflexivity |].
      intros rq2 c2 [H | []] Hm. injection H as <- _. discriminate.
  - rewrite Hok. split; [discriminate |].
    destruct h as [hs | n | bb | | items | fields]; cbv beta iota zeta in Hh;
      try (destruct Hh as [_ Hc]; exists [(mkRequest (crumb_url b) GET [] None, Some (b, u, p))];
           split; [exact Hc | intros rq2 c2 [H | []] Hm; injection H as <- _; discriminate]).
    rewrite Hh.
    exists [(mkRequest (crumb_url b) GET [] None, Some (b, u, p));
            (script_request (script_url b) hs cr, Some (b, u, p))].
    split; [destruct w; cbn; rewrite ?app_nil_r, <- ?app_assoc; reflexivity |].
    intros rq2 c2 [H | [H | []]] Hm.
    + injection H as <- _. discriminate.
    + injection H as <- _. exists cr, hs. auto.
Qed.

(** C3 (amended).  A [URLError] (an unreachable host, or an [HTTPError]
    for a non-2xx status) in the crumb GET is caught: the host-file hint
    and the details are printed and False is returned.  In the script
    POST it is caught by the generic handler: "API call failed" and the
    details are printed, without the hint, and None is returned.  Neither
    raises. *)
Theorem urlerror_handling b u p w :
  let c := Some (b, u, p) in
  let rq := mkRequest (crumb_url b) GET [] None in
  (forall e, urlopen_error (w_server w c rq) = Some e ->
     is_urlerror e = true
     /\ fst (verify_jenkins_api b u p w) = Ok (PyBool false)
     /\ w_out (snd (verify_jenkins_api b u p w))
        = (w_out w ++ setup_lines b ++ [hint_line; [Txt "   Details: "; Exn e]])%list)
  /\ (forall cr h e,
       crumb_ok (w_server w c rq) = Some (cr, JStr h) ->
       urlopen_error (w_server w c (script_request (script_url b) h cr)) = Some e ->
       is_urlerror e = true
       /\ fst (verify_jenkins_api b u p w) = Ok PyNone
       /\ w_out (snd (verify_jenkins_api b u p w))
          = (w_out w ++ setup_lines b
             ++ [[Txt "✅ Success! Got CSRF crumb: "; Val cr]; attempt_line]
             ++ failed_lines e)%list).
Proof.
  cbv zeta. split.
  - intros e He. destruct (crumb_report_urlerror _ _ He) as [Hu CR].
    rewrite (verify_spec _ _ _ _ _ _ CR). cbn [fst snd].
    split; [exact Hu | split; [reflexivity |]].
    destruct w; cbn. rewrite ?app_nil_r, <- ?app_assoc. reflexivity.
  - intros cr h e Hok He.
    destruct (verify_cases b u p w) as [(Hn & _) | (cr' & h' & Hok' & _ & Hh)];
      [congruence |].
    rewrite Hok in Hok'. injection Hok' as <- <-. cbv beta iota zeta in Hh.
    destruct (script_report_urlerror _ _ He) as [Hu HR].
    rewrite Hh, HR. cbn [fst snd].
    split; [exact Hu | split; [reflexivity |]].
    destruct w; cbn. rewrite ?app_nil_r, <- ?app_assoc. reflexivity.
Qed.

(** C3 as stated fails: the POST cannot reach the host, a [URLError]
    is caught, and no host-file hint is printed. *)
Lemma urlerror_hint_claim_fails :
  In [Txt "   Details: "; Exn (URLError "Name or service not known")]
     (w_out (snd (main env_path0 post_unreachable_world)))
  /\ ~ In hint_line (w_out (snd (main env_path0 post_unreachable_world))).
Proof.
  vm_compute. split.
  - repeat (first [left; reflexivity | right]).
  - intros H. repeat destruct H as [H | H]; try discriminate; exact H.
Qed.

(** C8 (evaluated at the failing input).  The script endpoint answers
    500 with the body boom: [urlopen] raises [HTTPError], the generic
    handler prints "API call failed" and the exception (HTTP Error 500),
    and the body is never printed; the [else] branch that prints status
    and body is not reached.  With 200 and Welcome the success message
    carries Welcome. *)
Theorem script_non_200_report :
  w_out (snd (main env_path0 script_500_world)) =
    (loading_line env_path0 :: setup_lines JENKINS_URL
     ++ [[Txt "✅ Success! Got CSRF crumb: "; Val (JStr "abc")]; attempt_line]
     ++ failed_lines (HTTPError 500 "Internal Server Error"))%list
  /\ exit_status (fst (main env_path0 script_500_world)) = 0
  /\ In [Txt "Authenticated API call returned: "; Txt "Welcome"]
        (w_out (snd (main env_path0 welcome_world))).
Proof.
  split; [vm_compute; reflexivity |]. split; [vm_compute; reflexivity |].
  vm_compute. repeat (first [left; reflexivity | right]).
Qed.

(** C9.  [verify_jenkins_api] never returns a truthy value: False exactly
    when the crumb fetch fails, None on every other return, the fully
    successful run included. *)
Theorem verify_never_truthy b u p w :
  let c := Some (b, u, p) in
  let rq := mkRequest (crumb_url b) GET [] None in
  match fst (verify_jenkins_api b u p w) with
  | Ok v =>
      truthy v = false
      /\ (v = PyBool false <-> crumb_ok (w_server w c rq) = None)
      /\ (v = PyNone <-> crumb_ok (w_server w c rq) <> None)
  | Raise _ => True
  end.
Proof.
  cbv zeta.
  destruct (verify_cases b u p w) as [(Hn & Hv & _) | (cr & h & Hok & _ & Hh)].
  - rewrite Hv, Hn. cbn. intuition congruence.
  - rewrite Hok. destruct h; cbv beta iota zeta in Hh;
      try (destruct Hh as [(cls & m & ->) _]; exact I).
    rewrite Hh. cbn. intuition congruence.
Qed.

(** ** Whitespace at the edges of UTF-8 text *)

Lemma str_app_assoc (a b c : string) : (a ++ b) ++ c = a ++ b ++ c.
Proof. induction a as [| x a IH]; cbn; [reflexivity | rewrite IH; reflexivity]. Qed.

Lemma str_app_nil (a : string) : a ++ "" = a.
Proof. induction a as [| x a IH]; cbn; [reflexivity | rewrite IH; reflexivity]. Qed.

Lemma contains_app c s t : contains c (s ++ t) = contains c s || contains c t.
Proof.
  induction s as [| d s IH]; cbn; [reflexivity |]. rewrite IH, orb_assoc. reflexivity.
Qed.

Lemma str_len_ind (P : string -> Prop) :
  (forall s, (forall t, (String.length t < String.length s)%nat -> P t) -> P s) -> forall s, P s.
Proof.
  intros H. assert (G : forall n s, (String.length s <= n)%nat -> P s).
  { induction n as [| n IH]; intros s Hs; apply H; intros t Ht; [lia | apply IH; lia]. }
  intros s. exact (G _ s (le_n _)).
Qed.

Lemma is_space_byte c : is_space c = true -> (nat_of_ascii c <= 32)%nat.
Proof.
  unfold is_space. intros H. apply orb_true_iff in H.
  destruct H as [H | H]; apply andb_prop in H as [_ H]; apply Nat.leb_le in H; lia.
Qed.

Lemma ws2_bytes c d :
  ws2 c d = true ->
  nat_of_ascii c = 194%nat /\ (nat_of_ascii d = 133 \/ nat_of_ascii d = 160)%nat.
Proof.
  unfold ws2. intros H. apply andb_prop in H as [H1 H2].
  apply Nat.eqb_eq in H1. apply orb_true_iff in H2.
  destruct H2 as [H2 | H2]; apply Nat.eqb_eq in H2; auto.
Qed.

Lemma ws3_bytes c d e :
  ws3 c d e = true ->
  (225 <= nat_of_ascii c <= 227)%nat
  /\ (128 <= nat_of_ascii d < 192)%nat /\ (128 <= nat_of_ascii e < 192)%nat.
Proof.
  unfold ws3. intros H.
  repeat match goal with
         | H : _ || _ = true |- _ => apply orb_true_iff in H; destruct H as [H | H]
         | H : _ && _ = true |- _ => apply andb_prop in H; destruct H as [H ?]
         end;
  repeat match goal with
         | H : (_ =? _)%nat = true |- _ => apply Nat.eqb_eq in H
         | H : (_ <=? _)%nat = true |- _ => apply Nat.leb_le in H
         end; lia.
Qed.

Lemma is_cont_false c : (nat_of_ascii c < 128 \/ 192 <= nat_of_ascii c)%nat -> is_cont c = false.
Proof.
  unfold is_cont. intros H.
  destruct (Nat.leb_spec 128 (nat_of_ascii c)), (Nat.ltb_spec (nat_of_ascii c) 192);
    cbn; auto; lia.
Qed.

Lemma is_cont_true c : is_cont c = true -> (128 <= nat_of_ascii c < 192)%nat.
Proof.
  unfold is_cont. intros H. apply andb_prop in H as [H1 H2].
  apply Nat.leb_le in H1. apply Nat.ltb_lt in H2. lia.
Qed.

Lemma is_cont_in c : (128 <= nat_of_ascii c < 192)%nat -> is_cont c = true.
Proof.
  unfold is_cont. intros H. apply andb_true_iff.
  split; [apply Nat.leb_le | apply Nat.ltb_lt]; lia.
Qed.

Lemma not_eq_byte c n : nat_of_ascii c <> n -> nat_of_ascii "=" = n -> Ascii.eqb "=" c = false.
Proof. intros H1 H2. destruct (Ascii.eqb_spec "=" c) as [<- | _]; [lia | reflexivity]. Qed.

Ltac ws_bytes :=
  repeat match goal with
         | H : is_space _ = true |- _ => apply is_space_byte in H
         | H : ws2 _ _ = true |- _ => apply ws2_bytes in H
         | H : ws3 _ _ _ = true |- _ => apply ws3_bytes in H
         end.

(** What [ws_head] takes off: a whitespace character [w], which keeps
    being taken whatever follows it, has no [=] and does not start with
    a continuation byte. *)
Lemma ws_head_some s w r :
  ws_head s = Some (w, r) ->
  s = w ++ r /\ w <> ""
  /\ (forall t, ws_head (w ++ t) = Some (w, t))
  /\ contains "=" w = false /\ starts_cont w = false.
Proof.
  destruct s as [| c [| d [| e s3]]]; cbn [ws_head]; [discriminate | ..].
  - destruct (is_space c) eqn:S; [| discriminate]. intros H; injection H as <- <-.
    split; [reflexivity |]. split; [discriminate |].
    split; [intros t; cbn; rewrite S; reflexivity |].
    ws_bytes. cbn [contains starts_cont].
    rewrite (not_eq_byte c 61), (is_cont_false c) by (cbn; lia). auto.
  - destruct (is_space c) eqn:S; [| destruct (ws2 c d) eqn:W; [| discriminate]];
      intros H; injection H as <- <-.
    + split; [reflexivity |]. split; [discriminate |].
      split; [intros t; cbn; rewrite S; reflexivity |].
      ws_bytes. cbn [contains starts_cont].
      rewrite (not_eq_byte c 61), (is_cont_false c) by (cbn; lia). auto.
    + split; [reflexivity |]. split; [discriminate |].
      split; [intros t; cbn; rewrite S, W; reflexivity |].
      ws_bytes. cbn [contains starts_cont].
      rewrite (not_eq_byte c 61), (not_eq_byte d 61), (is_cont_false c) by (cbn; lia). auto.
  - destruct (is_space c) eqn:S;
      [| destruct (ws2 c d) eqn:W; [| destruct (ws3 c d e) eqn:W3; [| discriminate]]];
      intros H; injection H as <- <-.
    + split; [reflexivity |]. split; [discriminate |].
      split; [intros t; cbn; rewrite S; reflexivity |].
      ws_bytes. cbn [contains starts_cont].
      rewrite (not_eq_byte c 61), (is_cont_false c) by (cbn; lia). auto.
    + split; [reflexivity |]. split; [discriminate |].
      split; [intros t; cbn; rewrite S, W; reflexivity |].
      ws_bytes. cbn [contains starts_cont].
      rewrite (not_eq_byte c 61), (not_eq_byte d 61), (is_cont_false c) by (cbn; lia). auto.
    + split; [reflexivity |]. split; [discriminate |].
      split; [intros t; cbn; rewrite S, W, W3; reflexivity |].
      ws_bytes. cbn [contains starts_cont].
      rewrite (not_eq_byte c 61), (not_eq_byte d 61), (not_eq_byte e 61), (is_cont_false c)
        by (cbn; lia). auto.
Qed.

Lemma ws_head_app_some s w r t :
  ws_head s = Some (w, r) -> ws_head (s ++ t) = Some (w, r ++ t).
Proof.
  intros H. destruct (ws_head_some _ _ _ H) as (-> & _ & Ht & _).
  rewrite str_app_assoc. apply Ht.
Qed.

(** A text with no whitespace character at its head keeps none when
    something that does not start inside a character follows it. *)
Lemma ws_head_app_none s t :
  s <> "" -> ws_head s = None -> starts_cont t = false -> ws_head (s ++ t) = None.
Proof.
  intros Hs Hn Ht.
  assert (W2 : forall c d, is_cont d = false -> ws2 c d = false).
  { intros c d Hd. destruct (ws2 c d) eqn:W; [| reflexivity].
    apply ws2_bytes in W. rewrite is_cont_in in Hd by lia. discriminate. }
  assert (W3d : forall c d e, is_cont d = false -> ws3 c d e = false).
  { intros c d e Hd. destruct (ws3 c d e) eqn:W; [| reflexivity].
    apply ws3_bytes in W. rewrite is_cont_in in Hd by lia. discriminate. }
  assert (W3e : forall c d e, is_cont e = false -> ws3 c d e = false).
  { intros c d e He. destruct (ws3 c d e) eqn:W; [| reflexivity].
    apply ws3_bytes in W. rewrite is_cont_in in He by lia. discriminate. }
  destruct s as [| c [| d [| e s3]]]; [congruence | ..]; cbn in Hn |- *.
  - destruct (is_space c); [discriminate |].
    destruct t as [| d t]; [reflexivity |]. cbn in Ht. rewrite W2 by exact Ht.
    destruct t as [| e t]; [reflexivity |]. rewrite W3d by exact Ht. reflexivity.
  - destruct (is_space c); [discriminate |]. destruct (ws2 c d); [discriminate |].
    destruct t as [| e t]; [reflexivity |]. cbn in Ht. rewrite W3e by exact Ht. reflexivity.
  - destruct (is_space c); [discriminate |]. destruct (ws2 c d); [discriminate |].
    destruct (ws3 c d e); [discriminate | reflexivity].
Qed.

Lemma ws_head_prefix s t : ws_head (s ++ t) = None -> ws_head s = None.
Proof.
  destruct (ws_head s) as [[w r] |] eqn:E; [| auto].
  rewrite (ws_head_app_some _ _ _ t E). discriminate.
Qed.

Lemma cont_no_head s : starts_cont s = true -> ws_head s = None.
Proof.
  destruct (ws_head s) as [[w r] |] eqn:E; [| auto].
  destruct (ws_head_some _ _ _ E) as (-> & Hw & _ & _ & Hc).
  destruct w; [congruence | cbn in Hc |- *; congruence].
Qed.

Lemma lstrip_u_eq s :
  lstrip_u s = match ws_head s with Some (_, r) => lstrip_u r | None => s end.
Proof.
  destruct s as [| c [| d [| e s3]]]; cbn; [reflexivity | ..];
    destruct (is_space c); try reflexivity;
    try (destruct (ws2 c d); try reflexivity);
    try (destruct (ws3 c d e); reflexivity).
Qed.

Lemma rstrip_u_eq s :
  rstrip_u s =
    match ws_head s with
    | Some (w, r) => glue w (rstrip_u r)
    | None => match s with EmptyString => EmptyString | String c s1 => String c (rstrip_u s1) end
    end.
Proof.
  destruct s as [| c [| d [| e s3]]]; cbn [rstrip_u ws_head]; [reflexivity | ..];
    destruct (is_space c); try reflexivity;
    try (destruct (ws2 c d); try reflexivity);
    try (destruct (ws3 c d e); reflexivity).
Qed.

Lemma str_length_app (a b : string) :
  String.length (a ++ b) = (String.length a + String.length b)%nat.
Proof. induction a as [| x a IH]; cbn; [reflexivity | rewrite IH; reflexivity]. Qed.

Lemma ws_head_shorter s w r :
  ws_head s = Some (w, r) -> (String.length r < String.length s)%nat.
Proof.
  intros H. destruct (ws_head_some _ _ _ H) as (-> & Hw & _).
  rewrite str_length_app. destruct w; [congruence | cbn; lia].
Qed.

Lemma glue_nonempty w r : r <> "" -> glue w r = w ++ r.
Proof. unfold glue. destruct (String.eqb_spec r ""); [contradiction | reflexivity]. Qed.

Lemma glue_empty w : glue w "" = "".
Proof. reflexivity. Qed.

Lemma app_empty_r (a b : string) : b <> "" -> a ++ b <> "".
Proof. destruct a; cbn; [auto | discriminate]. Qed.

Lemma lstrip_u_suffix s : exists p, s = p ++ lstrip_u s.
Proof.
  induction s as [s IH] using str_len_ind. rewrite lstrip_u_eq.
  destruct (ws_head s) as [[w r] |] eqn:E; [| exists ""; reflexivity].
  destruct (IH r (ws_head_shorter _ _ _ E)) as [p Hp].
  destruct (ws_head_some _ _ _ E) as (Hs & _).
  exists (w ++ p). rewrite str_app_assoc, <- Hp. exact Hs.
Qed.

Lemma rstrip_u_prefix s : exists q, s = rstrip_u s ++ q.
Proof.
  induction s as [s IH] using str_len_ind. rewrite rstrip_u_eq.
  destruct (ws_head s) as [[w r] |] eqn:E.
  - destruct (IH r (ws_head_shorter _ _ _ E)) as [q Hq].
    destruct (ws_head_some _ _ _ E) as (Hs & _).
    destruct (String.eqb_spec (rstrip_u r) "") as [R | R].
    + exists s. rewrite R. reflexivity.
    + exists q. rewrite glue_nonempty by exact R. rewrite str_app_assoc, <- Hq. exact Hs.
  - destruct s as [| c s1]; [exists ""; reflexivity |].
    destruct (IH s1 ltac:(cbn; lia)) as [q Hq]. exists q. cbn. rewrite <- Hq. reflexivity.
Qed.

Lemma lstrip_u_stable s : ws_head s = None -> lstrip_u s = s.
Proof. intros H. rewrite lstrip_u_eq, H. reflexivity. Qed.

Lemma lstrip_u_head s : ws_head (lstrip_u s) = None.
Proof.
  induction s as [s IH] using str_len_ind. rewrite lstrip_u_eq.
  destruct (ws_head s) as [[w r] |] eqn:E; [exact (IH r (ws_head_shorter _ _ _ E)) | exact E].
Qed.

Lemma lstrip_u_idem s : lstrip_u (lstrip_u s) = lstrip_u s.
Proof. apply lstrip_u_stable, lstrip_u_head. Qed.

(** Leading whitespace is dropped whatever follows it. *)
Lemma lstrip_ws_prefix sa x : lstrip_u sa = "" -> lstrip_u (sa ++ x) = lstrip_u x.
Proof.
  revert x. induction sa as [sa IH] using str_len_ind. intros x.
  rewrite (lstrip_u_eq sa).
  destruct (ws_head sa) as [[w r] |] eqn:E.
  - intros Hr. rewrite lstrip_u_eq, (ws_head_app_some _ _ _ x E).
    exact (IH r (ws_head_shorter _ _ _ E) x Hr).
  - intros ->. reflexivity.
Qed.

(** A text that starts with no whitespace keeps its start. *)
Lemma lstrip_keep_app k t :
  k <> "" -> ws_head k = None -> starts_cont t = false -> lstrip_u (k ++ t) = k ++ t.
Proof. intros Hk Hn Ht. apply lstrip_u_stable, ws_head_app_none; assumption. Qed.

(** [rstrip_u] of a concatenation, when the second part does not start
    inside a character. *)
Lemma rstrip_app s t :
  starts_cont t = false ->
  rstrip_u (s ++ t) = if String.eqb (rstrip_u t) "" then rstrip_u s else s ++ rstrip_u t.
Proof.
  intros Ht. induction s as [s IH] using str_len_ind.
  destruct s as [| c s1].
  - cbn [append]. destruct (String.eqb_spec (rstrip_u t) "") as [-> | _]; reflexivity.
  - destruct (ws_head (String c s1)) as [[w r] |] eqn:E.
    + rewrite (rstrip_u_eq (String c s1 ++ t)), (ws_head_app_some _ _ _ t E).
      rewrite (IH r (ws_head_shorter _ _ _ E)), (rstrip_u_eq (String c s1)), E.
      destruct (String.eqb_spec (rstrip_u t) "") as [_ | R]; [reflexivity |].
      destruct (ws_head_some _ _ _ E) as (Hs & _).
      rewrite glue_nonempty by (apply app_empty_r; exact R).
      rewrite Hs, str_app_assoc. reflexivity.
    + rewrite (rstrip_u_eq (String c s1 ++ t)).
      rewrite (ws_head_app_none (String c s1) t ltac:(discriminate) E Ht).
      rewrite (rstrip_u_eq (String c s1)), E. cbn [append].
      rewrite (IH s1 ltac:(cbn; lia)).
      destruct (String.eqb (rstrip_u t) ""); reflexivity.
Qed.

(** Whitespace before a text that does not strip to nothing is kept by
    [rstrip_u]. *)
Lemma rstrip_ws_prefix sc y :
  lstrip_u sc = "" -> rstrip_u y <> "" -> rstrip_u (sc ++ y) = sc ++ rstrip_u y.
Proof.
  intros Hsc Hy. revert Hsc. induction sc as [sc IH] using str_len_ind. intros Hsc.
  rewrite lstrip_u_eq in Hsc.
  destruct (ws_head sc) as [[w r] |] eqn:E; [| subst sc; reflexivity].
  rewrite rstrip_u_eq, (ws_head_app_some _ _ _ y E).
  rewrite (IH r (ws_head_shorter _ _ _ E) Hsc).
  rewrite glue_nonempty by (apply app_empty_r; exact Hy).
  destruct (ws_head_some _ _ _ E) as (-> & _). rewrite str_app_assoc. reflexivity.
Qed.

Lemma rstrip_ws s : lstrip_u s = "" -> rstrip_u s = "".
Proof.
  induction s as [s IH] using str_len_ind. intros Hs.
  rewrite lstrip_u_eq in Hs. rewrite rstrip_u_eq.
  destruct (ws_head s) as [[w r] |] eqn:E; [| subst s; reflexivity].
  rewrite (IH r (ws_head_shorter _ _ _ E) Hs). reflexivity.
Qed.

Lemma rstrip_empty s : rstrip_u s = "" -> lstrip_u s = "".
Proof.
  induction s as [s IH] using str_len_ind. intros Hs.
  rewrite rstrip_u_eq in Hs. rewrite lstrip_u_eq.
  destruct (ws_head s) as [[w r] |] eqn:E.
  - apply (IH r (ws_head_shorter _ _ _ E)).
    destruct (String.eqb_spec (rstrip_u r) "") as [R | R]; [exact R |].
    rewrite glue_nonempty in Hs by exact R.
    exfalso. revert Hs. apply app_empty_r. exact R.
  - destruct s; [reflexivity | discriminate].
Qed.

Lemma rstrip_head s : ws_head s = None -> ws_head (rstrip_u s) = None.
Proof.
  intros H. destruct (rstrip_u_prefix s) as [q Hq].
  rewrite Hq in H. exact (ws_head_prefix _ _ H).
Qed.

Lemma rstrip_u_idem s : rstrip_u (rstrip_u s) = rstrip_u s.
Proof.
  induction s as [s IH] using str_len_ind.
  rewrite (rstrip_u_eq s) at 2. rewrite (rstrip_u_eq s).
  destruct (ws_head s) as [[w r] |] eqn:E.
  - destruct (String.eqb_spec (rstrip_u r) "") as [R | R].
    + rewrite R. reflexivity.
    + rewrite glue_nonempty by exact R.
      destruct (ws_head_some _ _ _ E) as (_ & _ & Hw & _).
      rewrite rstrip_u_eq, Hw, (IH r (ws_head_shorter _ _ _ E)).
      apply glue_nonempty. exact R.
  - destruct s as [| c s1]; [reflexivity |].
    destruct (rstrip_u_prefix s1) as [q Hq].
    assert (H1 : ws_head (String c (rstrip_u s1)) = None).
    { apply (ws_head_prefix _ q). cbn [append]. rewrite <- Hq. exact E. }
    rewrite rstrip_u_eq, H1, (IH s1 ltac:(cbn; lia)). reflexivity.
Qed.

Lemma py_strip_idem s : py_strip (py_strip s) = py_strip s.
Proof.
  unfold py_strip.
  rewrite (lstrip_u_stable (rstrip_u (lstrip_u s))) by apply rstrip_head, lstrip_u_head.
  apply rstrip_u_idem.
Qed.

(** A text equal to its [strip()] keeps both its ends. *)
Lemma py_strip_fixed k :
  py_strip k = k -> lstrip_u k = k /\ rstrip_u k = k /\ ws_head k = None.
Proof.
  unfold py_strip. intros H.
  destruct (lstrip_u_suffix k) as [p Hp]. destruct (rstrip_u_prefix (lstrip_u k)) as [q Hq].
  assert (L : String.length k = (String.length p + (String.length k + String.length q))%nat).
  { rewrite H in Hq. rewrite Hq in Hp. rewrite Hp at 1. rewrite !str_length_app. reflexivity. }
  destruct p; [| cbn in L; lia]. destruct q; [| cbn in L; lia].
  cbn in Hp. rewrite str_app_nil in Hq. rewrite <- Hp.
  split; [reflexivity |]. split; [congruence |]. rewrite Hp. apply lstrip_u_head.
Qed.

Lemma py_strip_empty s : py_strip s = "" -> lstrip_u s = "".
Proof.
  unfold py_strip. intros H. apply rstrip_empty in H. rewrite lstrip_u_idem in H. exact H.
Qed.

Lemma lstrip_empty_no_eq s : lstrip_u s = "" -> contains "=" s = false /\ starts_cont s = false.
Proof.
  induction s as [s IH] using str_len_ind. intros Hs.
  rewrite lstrip_u_eq in Hs.
  destruct (ws_head s) as [[w r] |] eqn:E; [| subst s; auto].
  destruct (IH r (ws_head_shorter _ _ _ E) Hs) as [H1 _].
  destruct (ws_head_some _ _ _ E) as (-> & Hw & _ & Hc & Hs0).
  rewrite contains_app, Hc, H1. split; [reflexivity |].
  destruct w; [congruence | exact Hs0].
Qed.

Lemma contains_py_strip c s : contains c (py_strip s) = true -> contains c s = true.
Proof.
  unfold py_strip. intros H.
  destruct (lstrip_u_suffix s) as [p Hp]. destruct (rstrip_u_prefix (lstrip_u s)) as [q Hq].
  rewrite Hp, contains_app. rewrite Hq, contains_app, H. apply orb_true_r.
Qed.

Lemma contains_py_strip_false c s : contains c s = false -> contains c (py_strip s) = false.
Proof.
  intros H. destruct (contains c (py_strip s)) eqn:E; [| reflexivity].
  apply contains_py_strip in E. congruence.
Qed.

(** ** Strings at their edges *)


Lemma last_char_cons c s :
  last_char (String c s) = match last_char s with Some a => Some a | None => Some c end.
Proof.
  revert c. induction s as [| d s IH]; intros c; [reflexivity |].
  change (last_char (String c (String d s))) with (last_char (String d s)).
  rewrite IH. destruct (last_char s); reflexivity.
Qed.

Lemma last_char_app s t :
  last_char (s ++ t) = match last_char t with Some a => Some a | None => last_char s end.
Proof.
  induction s as [| c s IH]; cbn [append].
  - destruct (last_char t); reflexivity.
  - rewrite !last_char_cons, IH. destruct (last_char t), (last_char s); reflexivity.
Qed.

Lemma last_char_nonempty c s : last_char (String c s) <> None.
Proof. rewrite last_char_cons. destruct (last_char s); discriminate. Qed.

Lemma lstrip_keep p s : first_ok p s = true -> lstrip_by p s = s.
Proof. destruct s as [| c s]; cbn; [auto |]. destruct (p c); cbn; congruence. Qed.

Lemma rstrip_keep p s : last_ok p s = true -> rstrip_by p s = s.
Proof.
  induction s as [| c s IH]; [reflexivity |].
  unfold last_ok. rewrite last_char_cons. cbn [rstrip_by].
  destruct (last_char s) as [a |] eqn:E; intros H.
  - rewrite IH by (unfold last_ok; rewrite E; exact H).
    destruct s as [| d s]; [discriminate E |]. cbn. rewrite andb_false_r. reflexivity.
  - destruct s as [| d s]; [| exfalso; exact (last_char_nonempty d s E)].
    cbn in H |- *. destruct (p c); [discriminate | reflexivity].
Qed.

Lemma lstrip_all p q s : all_chars p q = true -> lstrip_by p (q ++ s) = lstrip_by p s.
Proof.
  induction q as [| c q IH]; cbn; [auto |].
  intros H. apply andb_prop in H as [Hc Hq]. rewrite Hc. auto.
Qed.

Lemma rstrip_all_empty p q : all_chars p q = true -> rstrip_by p q = "".
Proof.
  induction q as [| c q IH]; cbn; [auto |].
  intros H. apply andb_prop in H as [Hc Hq]. rewrite IH, Hc by exact Hq. reflexivity.
Qed.

Lemma rstrip_all p s q : all_chars p q = true -> rstrip_by p (s ++ q) = rstrip_by p s.
Proof.
  intros H. induction s as [| c s IH]; cbn [append].
  - rewrite rstrip_all_empty by exact H. reflexivity.
  - cbn [rstrip_by]. rewrite IH. reflexivity.
Qed.

Lemma split_first_app c k r :
  contains c k = false -> split_first c (k ++ String c r) = (k, r).
Proof.
  induction k as [| d k IH]; cbn.
  - rewrite Ascii.eqb_refl. reflexivity.
  - intros H. apply orb_false_iff in H as [Hd Hk]. rewrite Hd, IH by exact Hk. reflexivity.
Qed.

Lemma last_char_none s : last_char s = None -> s = "".
Proof.
  destruct s as [| c s]; [reflexivity |]. intros E. exfalso. exact (last_char_nonempty c s E).
Qed.

Lemma lstrip_first p s : first_ok p (lstrip_by p s) = true.
Proof.
  induction s as [| c s IH]; cbn; [reflexivity |].
  destruct (p c) eqn:E; [exact IH | cbn; rewrite E; reflexivity].
Qed.

Lemma rstrip_last p s : last_ok p (rstrip_by p s) = true.
Proof.
  induction s as [| c s IH]; [reflexivity |]. cbn [rstrip_by].
  destruct (p c && String.eqb (rstrip_by p s) "") eqn:E; [reflexivity |].
  unfold last_ok in *. rewrite last_char_cons.
  destruct (last_char (rstrip_by p s)) as [a |] eqn:L; [exact IH |].
  apply last_char_none in L. rewrite L in E. cbn in E. rewrite andb_true_r in E.
  rewrite E. reflexivity.
Qed.

Lemma rstrip_first p s : first_ok p s = true -> first_ok p (rstrip_by p s) = true.
Proof.
  destruct s as [| c s]; [auto |]. cbn [rstrip_by]. intros H.
  destruct (p c && String.eqb (rstrip_by p s) ""); [reflexivity | exact H].
Qed.

Lemma strip_edges p s :
  first_ok p (strip_by p s) = true /\ last_ok p (strip_by p s) = true.
Proof.
  unfold strip_by. split; [apply rstrip_first, lstrip_first | apply rstrip_last].
Qed.

Lemma split_first_fst c s : contains c (fst (split_first c s)) = false.
Proof.
  induction s as [| d s IH]; cbn; [reflexivity |].
  destruct (Ascii.eqb c d) eqn:E; [reflexivity |].
  destruct (split_first c s) as [a b]. cbn in IH |- *. rewrite E, IH. reflexivity.
Qed.

Lemma split_first_spec c s :
  contains c s = true ->
  s = fst (split_first c s) ++ String c (snd (split_first c s))
  /\ contains c (fst (split_first c s)) = false.
Proof.
  induction s as [| d s IH]; cbn; [discriminate |].
  destruct (Ascii.eqb_spec c d) as [-> | Hd]; [auto |].
  intros H. destruct (IH H) as [H1 H2].
  destruct (split_first c s) as [a b]. cbn in H1, H2 |- *.
  rewrite H2. destruct (Ascii.eqb_spec c d); [contradiction |]. rewrite <- H1. auto.
Qed.

Lemma strip_quotes_idem s : strip_quotes (strip_quotes s) = strip_quotes s.
Proof.
  destruct (strip_edges is_quote s) as [F L]. unfold strip_quotes in *.
  unfold strip_by at 1. rewrite lstrip_keep by exact F. apply rstrip_keep. exact L.
Qed.

(** A value between runs of quote characters strips back to itself. *)
Lemma strip_quoted qa v qb :
  all_chars is_quote qa = true -> all_chars is_quote qb = true ->
  first_ok is_quote v = true -> last_ok is_quote v = true ->
  strip_quotes (qa ++ v ++ qb) = v.
Proof.
  intros Hqa Hqb Hvf Hvl. unfold strip_quotes, strip_by.
  rewrite lstrip_all by exact Hqa.
  destruct v as [| c v].
  - cbn [append]. rewrite <- (str_app_nil qb), lstrip_all by exact Hqb. reflexivity.
  - rewrite lstrip_keep by (cbn in Hvf |- *; exact Hvf).
    rewrite rstrip_all by exact Hqb. apply rstrip_keep. exact Hvl.
Qed.

Lemma quote_head c t : is_quote c = true -> ws_head (String c t) = None.
Proof.
  unfold is_quote. intros H. apply orb_true_iff in H.
  destruct H as [H | H]; apply Ascii.eqb_eq in H; subst c;
    destruct t as [| d [| e t]]; reflexivity.
Qed.

Lemma quotes_no_cont q : all_chars is_quote q = true -> starts_cont q = false.
Proof.
  destruct q as [| c q]; cbn; [auto |]. intros H. apply andb_prop in H as [H _].
  unfold is_quote in H. apply orb_true_iff in H.
  destruct H as [H | H]; apply Ascii.eqb_eq in H; subst c; reflexivity.
Qed.

Lemma rstrip_quotes_prefix qa x :
  all_chars is_quote qa = true -> rstrip_u (qa ++ x) = qa ++ rstrip_u x.
Proof.
  induction qa as [| q qa IH]; cbn [append all_chars]; [auto |].
  intros H. apply andb_prop in H as [Hq H].
  rewrite rstrip_u_eq, quote_head by exact Hq. rewrite IH by exact H. reflexivity.
Qed.

Lemma eq_head t : ws_head (String "=" t) = None.
Proof. destruct t as [| d [| e t]]; reflexivity. Qed.

Lemma rstrip_eq_cons t : rstrip_u (String "=" t) = String "=" (rstrip_u t).
Proof. rewrite rstrip_u_eq, eq_head. reflexivity. Qed.

Lemma starts_cont_app s t :
  starts_cont s = false -> starts_cont t = false -> starts_cont (s ++ t) = false.
Proof. destruct s; cbn; auto. Qed.

(** ** load_env, line by line *)

Lemma last_value_app k pre post d :
  last_value k (pre ++ post) d = last_value k post (last_value k pre d).
Proof. unfold last_value. apply fold_left_app. Qed.

Lemma last_value_hit k l post d v :
  parse_line l = Some (k, v) -> last_value k (l :: post) d = last_value k post (Some v).
Proof. intros H. unfold last_value. cbn [fold_left]. rewrite H, String.eqb_refl. reflexivity. Qed.

Lemma last_value_skip k l post d :
  parse_line l = None -> last_value k (l :: post) d = last_value k post d.
Proof. intros H. unfold last_value. cbn [fold_left]. rewrite H. reflexivity. Qed.

Lemma last_value_no_key k ls d :
  (forall l k' v', In l ls -> parse_line l = Some (k', v') -> k' <> k) ->
  last_value k ls d = d.
Proof.
  unfold last_value. revert d. induction ls as [| a ls IH]; intros d H; cbn; [reflexivity |].
  destruct (parse_line a) as [[k' v'] |] eqn:P.
  - destruct (String.eqb k' k) eqn:E.
    + apply String.eqb_eq in E. exfalso. eapply H; [left; reflexivity | exact P | exact E].
    + apply IH. intros l k'' v'' Hin. apply H. right. exact Hin.
  - apply IH. intros l k'' v'' Hin. apply H. right. exact Hin.
Qed.

(** On a file that exists and opens, [load_env] prints only its first
    line and never returns False. *)
Lemma load_env_lines_out p w ls err :
  w_file w = Lines ls err ->
  w_out (snd (load_env p w)) = (w_out w ++ [loading_line p])%list
  /\ fst (load_env p w) <> Ok false.
Proof.
  intros Hf. destruct w as [env file srv op out calls]; cbn in Hf; subst file.
  unfold load_env, bind, print, path_exists, open_env_file, ret, raise.
  cbn -[for_each process_line].
  match goal with
  | |- context [for_each ls process_line ?w0] =>
      pose proof (for_each_lines ls w0) as Hl;
      destruct (for_each ls process_line w0) as [r w1]
  end.
  destruct Hl as [Hw1 _]. rewrite Hw1.
  destruct r; [destruct err as [[c m] |] |]; cbn; (split; [reflexivity | discriminate]).
Qed.

(** C4 (amended).  Each line is stripped of whitespace ([str.strip()],
    Unicode whitespace included); it yields no entry when the result is
    empty, starts with [#] or has no [=]; otherwise the stripped line is
    [a = b] with no [=] in [a], and the entry is the key [a.strip()]
    and the value [b.strip()] stripped of quote characters.  The entry
    is stored with [os.environ[key] = value]; that assignment raises
    (OSError for an empty key, ValueError for a NUL character) instead,
    and then the exception propagates out of [load_env] and the program
    exits with status 1 before any request.  A file holding the line
    [KEY="value"] sets KEY to value. *)
Theorem process_line_spec raw w :
  (forall k v, parse_line raw = Some (k, v) <->
     py_strip raw <> "" /\ startswith "#" (py_strip raw) = false
     /\ exists a b, py_strip raw = a ++ "=" ++ b /\ contains "=" a = false
                    /\ k = py_strip a /\ v = strip_quotes (py_strip b))
  /\ (parse_line raw = None <->
        py_strip raw = "" \/ startswith "#" (py_strip raw) = true
        \/ contains "=" (py_strip raw) = false)
  /\ (parse_line raw = None -> process_line raw w = (Ok tt, w))
  /\ (forall k v, parse_line raw = Some (k, v) ->
        if valid_entry k v then process_line raw w = (Ok tt, set_env k v w)
        else exists e, process_line raw w = (Raise e, w)
                       /\ (e = Error "OSError" "[Errno 22] Invalid argument"
                           \/ e = Error "ValueError" "embedded null byte"))
  /\ (forall p ls err k v, w_file w = Lines ls err -> In raw ls ->
        parse_line raw = Some (k, v) -> valid_entry k v = false ->
        (exists c m, fst (load_env p w) = Raise (Error c m))
        /\ exit_status (fst (main p w)) = 1
        /\ w_calls (snd (main p w)) = w_calls w)
  /\ (forall p, w_file w = Lines ["KEY=" ++ dq ++ "value" ++ dq] None ->
        fst (load_env p w) = Ok true /\ w_env (snd (load_env p w)) "KEY" = Some "value").
Proof.
  split.
  { intros k v. unfold parse_line. set (l := py_strip raw). cbv zeta. split.
    - destruct (String.eqb_spec l "") as [_ | Hne]; [discriminate |].
      destruct (startswith "#" l) eqn:Hh; [discriminate |].
      destruct (contains "=" l) eqn:Hc; [| discriminate]. cbn [negb andb].
      destruct (split_first_spec "=" l Hc) as [Hl Ha].
      destruct (split_first "=" l) as [a b]. cbn [fst snd] in Hl, Ha.
      intros H. injection H as <- <-.
      split; [exact Hne |]. split; [reflexivity |]. exists a, b. auto.
    - intros (Hne & Hh & a & b & Hl & Ha & -> & ->).
      destruct (String.eqb_spec l "") as [E | _]; [contradiction |].
      rewrite Hh, Hl, contains_app. change ("=" ++ b) with (String "=" b).
      cbn [contains]. rewrite Ascii.eqb_refl, orb_true_r.
      cbn [negb andb]. rewrite split_first_app by exact Ha. reflexivity. }
  split.
  { unfold parse_line. set (l := py_strip raw). cbv zeta.
    destruct (String.eqb_spec l "") as [E | E]; cbn [negb andb].
    - split; [intros _; left; exact E | reflexivity].
    - destruct (startswith "#" l) eqn:Hh; cbn [negb andb].
      + split; [intros _; right; left; reflexivity | reflexivity].
      + destruct (contains "=" l) eqn:Hc.
        * destruct (split_first "=" l).
          split; [discriminate | intros [H | [H | H]]; [contradiction | discriminate | discriminate]].
        * split; [intros _; right; right; reflexivity | reflexivity]. }
  split; [intros H; unfold process_line; rewrite H; reflexivity |].
  split.
  { intros k v H. unfold process_line. rewrite H, setenv_spec.
    destruct (valid_entry k v); [reflexivity |].
    eexists. split; [reflexivity |].
    destruct (contains (ascii_of_nat 0) k || contains (ascii_of_nat 0) v); auto. }
  split.
  { intros p ls err k v Hf Hin Hp Hv.
    assert (Hlf : load_fails (w_file w)) by (rewrite Hf; right; exists raw, k, v; auto).
    rewrite main_spec. pose proof (load_env_result p w) as HL.
    destruct (load_env p w) as [r w1]. destruct HL as (_ & Hc & _ & HL).
    rewrite Hf in HL. cbn beta iota in HL.
    destruct r as [b | e].
    - destruct HL as (_ & Hn & _). rewrite Hf in Hlf. contradiction.
    - destruct HL as (_ & c & m & ->). cbn. split; [eauto |]. split; [reflexivity | exact Hc]. }
  intros p Hf. pose proof (load_env_result p w) as HL.
  destruct (load_env p w) as [r w1]. destruct HL as (_ & _ & _ & HL).
  rewrite Hf in HL. cbn beta iota in HL.
  destruct r as [b | e].
  - destruct HL as (-> & _ & ls & Hls & Hk). injection Hls as <-. cbn [fst snd].
    split; [reflexivity |]. rewrite Hk. reflexivity.
  - destruct HL as [[H | (l & k & v & Hin & Hp & Hv)] _]; [congruence |].
    destruct Hin as [<- | []]. vm_compute in Hp. injection Hp as <- <-. discriminate Hv.
Qed.

(** C4 fails for a line with an empty key: [=value] passes the filter
    and splits into the key [] and the value [value], but
    [os.environ['']] raises OSError, which propagates out of [load_env]. *)
Lemma process_line_claim_fails :
  parse_line "=value" = Some ("", "value")
  /\ fst (load_env env_path0 empty_key_world)
     = Raise (Error "OSError" "[Errno 22] Invalid argument")
  /\ exit_status (fst (main env_path0 empty_key_world)) = 1.
Proof. split; [| split]; vm_compute; reflexivity. Qed.

(** C5.  With no environment file, [load_env] prints the diagnostic and
    returns False without raising; the program then exits with status 1
    and sends no request. *)
Theorem missing_file_exits p w :
  w_file w = Missing ->
  load_env p w = (Ok false, extend w (loading_line p :: missing_lines p) [])
  /\ main p w = (Raise (SystemExit 1), extend w (loading_line p :: missing_lines p) [])
  /\ exit_status (fst (main p w)) = 1
  /\ w_calls (snd (main p w)) = w_calls w.
Proof.
  intros Hm. pose proof (load_env_result p w) as HL. rewrite Hm in HL.
  destruct (load_env p w) as [r w1] eqn:E.
  destruct HL as (_ & _ & _ & -> & ->).
  rewrite main_spec, E.
  split; [reflexivity |]. split; [reflexivity |]. split; [reflexivity |].
  cbn. apply app_nil_r.
Qed.

Lemma missing_file_exits_witness :
  w_file missing_world = Missing
  /\ exit_status (fst (main env_path0 missing_world)) = 1.
Proof.
  split; [reflexivity |].
  exact (proj1 (proj2 (proj2 (missing_file_exits env_path0 missing_world eq_refl)))).
Defined.

(** C6.  When [load_env] completes, a key takes the value of the last
    parsed line that names it, whatever the key looks like: a line
    [l] with key [k] and value [v] that no later line overrides leaves
    [k] set to [v]. *)
Theorem load_env_last_wins p w w' pre l post k v :
  load_env p w = (Ok true, w') ->
  w_file w = Lines (pre ++ l :: post) None ->
  parse_line l = Some (k, v) ->
  (forall l' k' v', In l' post -> parse_line l' = Some (k', v') -> k' <> k) ->
  w_env w' k = Some v.
Proof.
  intros HL Hf Hp Hno. pose proof (load_env_result p w) as R. rewrite HL in R.
  destruct R as (_ & _ & _ & R). rewrite Hf in R. cbn beta iota in R.
  destruct R as (_ & _ & ls & Hls & Hk). injection Hls as <-.
  rewrite Hk, last_value_app, last_value_hit with (v := v) by exact Hp.
  apply last_value_no_key. exact Hno.
Qed.

Lemma load_env_last_wins_witness :
  w_env (snd (load_env env_path0 dup_world)) "A" = Some "3".
Proof.
  refine (load_env_last_wins env_path0 dup_world (snd (load_env env_path0 dup_world))
            ["A=1"; "B=2"] "A=3" [] "A" "3" _ _ _ _).
  - rewrite (surjective_pairing (load_env env_path0 dup_world)) at 1.
    f_equal; vm_compute; reflexivity.
  - reflexivity.
  - vm_compute. reflexivity.
  - intros l' k' v' [].
Defined.

(** ** The secret before the network *)

Lemma verify_calls b u p w :
  exists new, w_calls (snd (verify_jenkins_api b u p w)) = (w_calls w ++ new)%list
  /\ Forall (fun x => snd x = Some (b, u, p)) new.
Proof.
  pose proof (verify_cases b u p w) as H. cbv zeta in H.
  destruct H as [(_ & Hv & _) | (cr & h & _ & _ & Hh)].
  - rewrite Hv. eexists. split; [destruct w; cbn; rewrite app_nil_r; reflexivity |].
    repeat constructor.
  - destruct h; cbv beta iota zeta in Hh;
      try (destruct Hh as [_ Hc]; rewrite Hc; eexists; split; [reflexivity | repeat constructor]).
    rewrite Hh. eexists. split; [destruct w; cbn; rewrite app_nil_r; reflexivity |].
    repeat constructor.
Qed.

(** C7.  The requests a run sends are appended to those sent before, and
    if there is any, [load_env] returned True, JENKINS_ADMIN_PASSWORD was
    then set to a non-empty [pw], and every request went out through the
    opener that authenticates as [admin] with [pw]. *)
Theorem network_needs_secret p w :
  exists new, w_calls (snd (main p w)) = (w_calls w ++ new)%list
  /\ (new <> [] ->
      exists pw, fst (load_env p w) = Ok true
        /\ w_env (snd (load_env p w)) PASSWORD_KEY = Some pw /\ pw <> ""
        /\ Forall (fun x => snd x = Some (JENKINS_URL, JENKINS_USER, pw)) new).
Proof.
  rewrite main_spec. pose proof (load_env_result p w) as HL.
  destruct (load_env p w) as [[[|] | e] w1]; destruct HL as (_ & Hc & _ & _); cbn [fst snd].
  - destruct (w_env w1 PASSWORD_KEY) as [q |] eqn:E.
    + cbn [str_falsy]. destruct (String.eqb q "") eqn:F.
      * exists []. split; [cbn; rewrite Hc, !app_nil_r; reflexivity | congruence].
      * destruct (verify_calls JENKINS_URL JENKINS_USER q w1) as (new & Hn & Hf).
        exists new. split.
        -- destruct (verify_jenkins_api _ _ _ w1) as [[a | e] w2]; cbn [snd] in Hn |- *;
             rewrite Hn, Hc; reflexivity.
        -- intros _. exists q. split; [reflexivity |]. split; [reflexivity |].
           split; [intros Hq; subst q; discriminate F | exact Hf].
    + exists []. split; [cbn; rewrite Hc, !app_nil_r; reflexivity | congruence].
  - exists []. split; [rewrite Hc, app_nil_r; reflexivity | congruence].
  - exists []. split; [rewrite Hc, app_nil_r; reflexivity | congruence].
Qed.

(** C10.  A line with no [=] yields no entry: it has no effect on the
    loop (the run over the file with it equals the run without it), on
    the value any key ends with, or on the console; and [load_env] on a
    file that opens never returns False. *)
Theorem line_without_equals_skipped p l pre post err w :
  contains "=" l = false ->
  w_file w = Lines (pre ++ l :: post) err ->
  parse_line l = None
  /\ (forall w0, process_line l w0 = (Ok tt, w0))
  /\ (forall w0, for_each (pre ++ l :: post) process_line w0
                 = for_each (pre ++ post) process_line w0)
  /\ (forall k d, last_value k (pre ++ l :: post) d = last_value k (pre ++ post) d)
  /\ fst (load_env p w) <> Ok false
  /\ w_out (snd (load_env p w)) = (w_out w ++ [loading_line p])%list.
Proof.
  intros Hc Hf.
  assert (Hp : parse_line l = None).
  { unfold parse_line. cbv zeta.
    rewrite (contains_py_strip_false "=" l Hc), andb_false_r. reflexivity. }
  assert (Hl : forall w0, process_line l w0 = (Ok tt, w0)).
  { intros w0. unfold process_line. rewrite Hp. reflexivity. }
  destruct (load_env_lines_out p w _ _ Hf) as [Ho Hr].
  split; [exact Hp |]. split; [exact Hl |].
  split; [apply for_each_skip; exact Hl |].
  split; [| auto].
  intros k d. rewrite !last_value_app, last_value_skip by exact Hp. reflexivity.
Qed.

Lemma line_without_equals_skipped_witness :
  fst (load_env env_path0 text_line_world) <> Ok false.
Proof.
  exact (proj1 (proj2 (proj2 (proj2 (proj2
    (line_without_equals_skipped env_path0 "JUSTTEXT" [] ["A=1"] None text_line_world
       eq_refl eq_refl)))))).
Defined.

(** ** The parser on well-formed entries *)

(** X1.  The parser reads back the entry it was given: a line made of
    whitespace, a key (non-empty, equal to its [strip()], not starting
    with [#], no [=]), whitespace, [=], whitespace, a value (equal to its
    [strip()] and to its strip of quote characters; it may contain [=] and inner
    quotes) enclosed in any runs of quote characters, and whitespace,
    yields that key and that value.  Whitespace is any text whose
    [strip()] is empty, non-ASCII whitespace included. *)
Theorem parse_line_entry sa k sb sc qa v qb sd :
  py_strip sa = "" -> py_strip sb = "" -> py_strip sc = "" -> py_strip sd = "" ->
  all_chars is_quote qa = true -> all_chars is_quote qb = true ->
  k <> "" -> py_strip k = k -> startswith "#" k = false -> contains "=" k = false ->
  py_strip v = v -> strip_quotes v = v ->
  parse_line (sa ++ k ++ sb ++ "=" ++ sc ++ qa ++ v ++ qb ++ sd) = Some (k, v).
Proof.
  intros Hsa Hsb Hsc Hsd Hqa Hqb Hk Hkk Hkh Hke Hvv Hvq.
  apply py_strip_empty in Hsa, Hsb, Hsc, Hsd.
  destruct (py_strip_fixed k Hkk) as (Kl & Kr & Kh).
  destruct (py_strip_fixed v Hvv) as (Vl & Vr & Vh).
  destruct (lstrip_empty_no_eq sb Hsb) as [Sbe Sbc].
  destruct (lstrip_empty_no_eq sd Hsd) as [_ Sdc].
  set (Y := qa ++ v ++ qb).
  assert (HY1 : rstrip_u Y = Y).
  { unfold Y. rewrite rstrip_quotes_prefix by exact Hqa. f_equal.
    rewrite rstrip_app by exact (quotes_no_cont qb Hqb).
    assert (Rq : rstrip_u qb = qb).
    { rewrite <- (str_app_nil qb) at 1. rewrite rstrip_quotes_prefix by exact Hqb.
      apply str_app_nil. }
    rewrite Rq. destruct (String.eqb_spec qb "") as [-> | _];
      [rewrite Vr, str_app_nil |]; reflexivity. }
  assert (HY2 : Y <> "" -> ws_head Y = None).
  { unfold Y. intros Hne. destruct qa as [| q qa'].
    - destruct v as [| c v'].
      + destruct qb as [| q qb']; [contradiction |]. cbn in Hqb.
        apply andb_prop in Hqb as [Hq _]. cbn [append]. apply quote_head. exact Hq.
      + change (ws_head (String c v' ++ qb) = None).
        apply ws_head_app_none; [discriminate | exact Vh | exact (quotes_no_cont qb Hqb)].
    - cbn in Hqa. apply andb_prop in Hqa as [Hq _]. cbn [append]. apply quote_head. exact Hq. }
  replace (sa ++ k ++ sb ++ "=" ++ sc ++ qa ++ v ++ qb ++ sd)
    with (sa ++ k ++ sb ++ String "=" ((sc ++ Y) ++ sd))
    by (unfold Y; rewrite !str_app_assoc; reflexivity).
  set (Z := (sc ++ Y) ++ sd).
  assert (HZ : rstrip_u Z = rstrip_u (sc ++ Y)).
  { unfold Z. rewrite rstrip_app by exact Sdc. rewrite rstrip_ws by exact Hsd. reflexivity. }
  assert (HL : py_strip (sa ++ k ++ sb ++ String "=" Z)
               = (k ++ sb) ++ String "=" (rstrip_u (sc ++ Y))).
  { unfold py_strip. rewrite lstrip_ws_prefix by exact Hsa.
    rewrite lstrip_keep_app
      by first [exact Hk | exact Kh | apply starts_cont_app; [exact Sbc | reflexivity]].
    rewrite <- str_app_assoc, rstrip_app by reflexivity.
    rewrite rstrip_eq_cons, HZ. reflexivity. }
  unfold parse_line. rewrite HL. cbv zeta.
  set (R := rstrip_u (sc ++ Y)).
  destruct k as [| c k']; [congruence |].
  assert (E1 : String.eqb ((String c k' ++ sb) ++ String "=" R) "" = false)
    by reflexivity.
  assert (E2 : startswith "#" ((String c k' ++ sb) ++ String "=" R) = false).
  { revert Hkh. unfold startswith. cbn [append String.prefix].
    destruct (Ascii.ascii_dec "#" c); [destruct k'; intros H; discriminate H | auto]. }
  assert (E3 : contains "=" ((String c k' ++ sb) ++ String "=" R) = true).
  { rewrite !contains_app. cbn [contains]. rewrite Ascii.eqb_refl.
    rewrite !orb_true_r. reflexivity. }
  rewrite E1, E2, E3. cbn [negb andb].
  rewrite split_first_app by (rewrite contains_app, Hke; exact Sbe).
  assert (Hkey : py_strip (String c k' ++ sb) = String c k').
  { unfold py_strip. rewrite lstrip_keep_app by first [discriminate | exact Kh | exact Sbc].
    rewrite rstrip_app by exact Sbc. rewrite rstrip_ws by exact Hsb. exact Kr. }
  rewrite Hkey. f_equal. f_equal.
  destruct (String.eqb_spec Y "") as [EY | NY].
  - unfold R. rewrite EY, str_app_nil, rstrip_ws by exact Hsc.
    assert (Hv : v = "").
    { unfold Y in EY. destruct qa; [destruct v; [reflexivity | discriminate] | discriminate]. }
    subst v. reflexivity.
  - unfold R. rewrite rstrip_ws_prefix by first [exact Hsc | rewrite HY1; exact NY].
    rewrite HY1. unfold py_strip. rewrite lstrip_ws_prefix by exact Hsc.
    rewrite lstrip_u_stable by exact (HY2 NY). rewrite HY1.
    destruct (strip_edges is_quote v) as [F L].
    change (strip_by is_quote v) with (strip_quotes v) in F, L. rewrite Hvq in F, L.
    apply strip_quoted; assumption.
Qed.

Lemma parse_line_entry_witness :
  parse_line (nbsp ++ "KEY" ++ nbsp ++ "=" ++ " " ++ "'" ++ "a=b" ++ "'" ++ " ")
  = Some ("KEY", "a=b").
Proof.
  exact (parse_line_entry nbsp "KEY" nbsp " " "'" "a=b" "'" " "
           eq_refl eq_refl eq_refl eq_refl eq_refl eq_refl
           ltac:(discriminate) eq_refl eq_refl eq_refl eq_refl eq_refl).
Defined.

(** X2.  Every entry the parser yields has a key with no [=] that is
    equal to its [strip()], and a value equal to its strip of quote characters. *)
Theorem parse_line_shape raw k v :
  parse_line raw = Some (k, v) ->
  contains "=" k = false /\ py_strip k = k /\ strip_quotes v = v.
Proof.
  unfold parse_line. cbv zeta.
  destruct (negb _ && negb _ && contains "=" (py_strip raw)); [| discriminate].
  pose proof (split_first_fst "=" (py_strip raw)) as Hf.
  destruct (split_first "=" (py_strip raw)) as [a b]. cbn [fst] in Hf.
  intros H. injection H as <- <-.
  split; [exact (contains_py_strip_false "=" a Hf) |].
  split; [apply py_strip_idem | apply strip_quotes_idem].
Qed.

Lemma parse_line_shape_witness :
  py_strip "A" = "A" /\ strip_quotes "b" = "b".
Proof.
  destruct (parse_line_shape (nbsp ++ "A" ++ nbsp ++ "= 'b'") "A" "b" eq_refl) as (_ & H1 & H2).
  exact (conj H1 H2).
Defined.

(** ** load_env and main *)

(** X3.  A key that no parsed line of the file names keeps the value it
    had in the process environment when [load_env] completes, and
    [load_env] sends no request. *)
Theorem load_env_keeps_other_keys p w w' ls err k :
  load_env p w = (Ok true, w') -> w_file w = Lines ls err ->
  (forall l k' v', In l ls -> parse_line l = Some (k', v') -> k' <> k) ->
  w_env w' k = w_env w k /\ w_calls w' = w_calls w.
Proof.
  intros HL Hf Hno. pose proof (load_env_result p w) as R. rewrite HL in R.
  destruct R as (_ & Hc & _ & R). rewrite Hf in R. cbn beta iota in R.
  destruct R as (_ & _ & ls' & Hls & Hk). injection Hls as <- _.
  split; [| exact Hc]. rewrite Hk. apply last_value_no_key. exact Hno.
Qed.

Lemma load_env_keeps_other_keys_witness :
  w_env (snd (load_env env_path0 dup_world)) "C" = None.
Proof.
  refine (proj1 (load_env_keeps_other_keys env_path0 dup_world
                   (snd (load_env env_path0 dup_world)) ["A=1"; "B=2"; "A=3"] None "C"
                   _ eq_refl _)).
  - rewrite (surjective_pairing (load_env env_path0 dup_world)) at 1.
    f_equal; vm_compute; reflexivity.
  - intros l k' v' Hin Hp.
    destruct Hin as [<- | [<- | [<- | []]]]; vm_compute in Hp; injection Hp as <- _;
      discriminate.
Defined.

Lemma verify_first_call b u p w :
  exists rest, w_calls (snd (verify_jenkins_api b u p w))
    = (w_calls w ++ (mkRequest (crumb_url b) GET [] None, Some (b, u, p)) :: rest)%list
  /\ (length rest <= 1)%nat /\ Forall (fun x => snd x = Some (b, u, p)) rest.
Proof.
  pose proof (verify_cases b u p w) as H. cbv zeta in H.
  destruct H as [(_ & Hv & _) | (cr & h & _ & _ & Hh)].
  - rewrite Hv. exists []. split; [destruct w; cbn; rewrite app_nil_r; reflexivity | auto].
  - destruct h; cbv beta iota zeta in Hh;
      try (destruct Hh as [_ Hc]; rewrite Hc; exists []; split; [reflexivity | auto]).
    rewrite Hh. eexists. split; [destruct w; cbn; rewrite app_nil_r; reflexivity |].
    split; [cbn; lia | repeat constructor].
Qed.

(** X4.  When the file loads and JENKINS_ADMIN_PASSWORD ends up
    non-empty (set by the file, or already in the process environment
    when no line names it), the first request of the run is the crumb
    GET sent with the credentials admin and that password, and at most
    one more request follows, with the same credentials. *)
Theorem main_first_request p w ls pw :
  w_file w = Lines ls None -> ~ load_fails (w_file w) ->
  last_value PASSWORD_KEY ls (w_env w PASSWORD_KEY) = Some pw -> pw <> "" ->
  exists rest, w_calls (snd (main p w))
    = (w_calls w ++ (snd (pw_request pw), fst (pw_request pw)) :: rest)%list
  /\ (length rest <= 1)%nat /\ Forall (fun x => snd x = fst (pw_request pw)) rest.
Proof.
  intros Hf Hnf Hv Hpw. rewrite Hf in Hnf. rewrite main_spec.
  pose proof (load_env_result p w) as R.
  destruct (load_env p w) as [r w1]. destruct R as (_ & Hc & _ & R).
  rewrite Hf in R. cbn beta iota in R.
  destruct r as [b | e]; [| destruct R as [R _]; contradiction].
  destruct R as (-> & _ & ls' & Hls & Hk). injection Hls as <-.
  cbn beta iota. rewrite Hk, Hv. cbn [str_falsy].
  destruct (String.eqb pw "") eqn:E; [apply String.eqb_eq in E; contradiction |].
  destruct (verify_first_call JENKINS_URL JENKINS_USER pw w1) as (rest & H1 & H2 & H3).
  exists rest.
  destruct (verify_jenkins_api JENKINS_URL JENKINS_USER pw w1) as [[a | e] w2];
    cbn [snd] in H1 |- *; rewrite H1, Hc; auto.
Qed.

Lemma main_first_request_witness :
  exists rest, w_calls (snd (main env_path0 inherited_world))
    = ((snd (pw_request "fromenv"), fst (pw_request "fromenv")) :: rest)%list.
Proof.
  assert (Hnf : ~ load_fails (w_file inherited_world)).
  { intros [H | (l & k & v & Hin & Hp & Hval)]; [congruence |].
    destruct Hin as [<- | []]. vm_compute in Hp. injection Hp as <- <-.
    vm_compute in Hval. discriminate. }
  destruct (main_first_request env_path0 inherited_world ["OTHER=1"] "fromenv"
              eq_refl Hnf ltac:(vm_compute; reflexivity) ltac:(discriminate))
    as (rest & H & _).
  exists rest. exact H.
Defined.

(** ** The crumb fetch and the script call, path by path *)

Lemma crumb_fields_error b e : crumb_fields b = Raise e -> exists cls m, e = Error cls m.
Proof.
  unfold crumb_fields.
  destruct (loads b) as [d | e0] eqn:L; [| intros H; injection H as <-; eapply loads_error; eauto].
  destruct (lookup_item d "crumb") as [c | e0] eqn:L1;
    [| intros H; injection H as <-; eapply lookup_item_error; eauto].
  destruct (lookup_item d "crumbRequestField") as [h | e0] eqn:L2;
    [discriminate | intros H; injection H as <-; eapply lookup_item_error; eauto].
Qed.

(** X5.  When the crumb GET raises [HTTPError] (the final reply, after
    the Basic auth retry and the redirects, has a status outside 2xx),
    the error is reported as a connection failure: the run prints the
    hint about /etc/hosts and the HTTP error, sends nothing else and
    returns False. *)
Theorem crumb_http_error_hint b u p w code msg bd :
  w_server w (Some (b, u, p)) (mkRequest (crumb_url b) GET [] None) = Reply code msg bd ->
  (code < 200 \/ 300 <= code) ->
  verify_jenkins_api b u p w =
    (Ok (PyBool false),
     extend (extend (set_opener (b, u, p) w) (setup_lines b) [])
            [hint_line; [Txt "   Details: "; Exn (HTTPError code msg)]]
            [(mkRequest (crumb_url b) GET [] None, Some (b, u, p))]).
Proof.
  intros Hs Hc.
  assert (E : (200 <=? code) && (code <? 300) = false).
  { apply andb_false_iff. destruct Hc; [left; apply Z.leb_gt | right; apply Z.ltb_ge]; lia. }
  rewrite (verify_spec b u p w (Returned (PyBool false))
             [hint_line; [Txt "   Details: "; Exn (HTTPError code msg)]]);
    [reflexivity |].
  rewrite Hs. cbn [crumb_report]. rewrite E. reflexivity.
Qed.

Lemma crumb_http_error_hint_witness :
  fst (verify_jenkins_api JENKINS_URL JENKINS_USER "secret"
         crumb_503_world)
  = Ok (PyBool false).
Proof.
  rewrite (crumb_http_error_hint JENKINS_URL JENKINS_USER "secret" crumb_503_world 503
             "Service Unavailable" (text_body "down") eq_refl ltac:(right; lia)).
  reflexivity.
Defined.

(** X6.  A 2xx status other than 200 from the crumb issuer makes the run
    print the status as a failure, send nothing else and return False. *)
Theorem crumb_other_2xx b u p w code msg bd :
  w_server w (Some (b, u, p)) (mkRequest (crumb_url b) GET [] None) = Reply code msg bd ->
  200 < code < 300 ->
  verify_jenkins_api b u p w =
    (Ok (PyBool false),
     extend (extend (set_opener (b, u, p) w) (setup_lines b) [])
            [[Txt "⛔ ERROR: Failed to get crumb. Status: "; Int code]]
            [(mkRequest (crumb_url b) GET [] None, Some (b, u, p))]).
Proof.
  intros Hs Hc.
  assert (E : (200 <=? code) && (code <? 300) = true).
  { apply andb_true_iff. split; [apply Z.leb_le | apply Z.ltb_lt]; lia. }
  assert (E2 : (code =? 200) = false) by (apply Z.eqb_neq; lia).
  rewrite (verify_spec b u p w (Returned (PyBool false))
             [[Txt "⛔ ERROR: Failed to get crumb. Status: "; Int code]]);
    [reflexivity |].
  rewrite Hs. cbn [crumb_report]. rewrite E, E2. reflexivity.
Qed.

Lemma crumb_other_2xx_witness :
  fst (verify_jenkins_api JENKINS_URL JENKINS_USER "secret"
         crumb_204_world)
  = Ok (PyBool false).
Proof.
  rewrite (crumb_other_2xx JENKINS_URL JENKINS_USER "secret" crumb_204_world 204 "No Content"
             (text_body "") eq_refl ltac:(lia)).
  reflexivity.
Defined.

(** X7.  A 200 reply from the crumb issuer whose body cannot be decoded,
    is not JSON, or lacks [crumb] or [crumbRequestField] makes the run
    print the exception (a non-network error) as an unknown error, send
    nothing else and return False. *)
Theorem crumb_bad_body b u p w msg bd e :
  w_server w (Some (b, u, p)) (mkRequest (crumb_url b) GET [] None) = Reply 200 msg bd ->
  crumb_fields bd = Raise e ->
  (exists cls m, e = Error cls m)
  /\ verify_jenkins_api b u p w =
    (Ok (PyBool false),
     extend (extend (set_opener (b, u, p) w) (setup_lines b) [])
            [[Txt "⛔ ERROR: An unknown error occurred: "; Exn e]]
            [(mkRequest (crumb_url b) GET [] None, Some (b, u, p))]).
Proof.
  intros Hs He. split; [exact (crumb_fields_error bd e He) |].
  rewrite (verify_spec b u p w (Returned (PyBool false))
             [[Txt "⛔ ERROR: An unknown error occurred: "; Exn e]]);
    [reflexivity |].
  rewrite Hs. cbn [crumb_report]. cbn beta iota. rewrite He. reflexivity.
Qed.

Lemma crumb_bad_body_witness :
  fst (verify_jenkins_api JENKINS_URL JENKINS_USER "secret"
         no_crumb_world)
  = Ok (PyBool false).
Proof.
  rewrite (proj2 (crumb_bad_body JENKINS_URL JENKINS_USER "secret" no_crumb_world "OK" no_crumb_body
                    (Error "KeyError" "crumb") eq_refl eq_refl)).
  reflexivity.
Defined.

(** X9.  The script call prints the success banner exactly when the POST
    is answered with status 200 and a body that decodes; it sends the one
    request it is given, through the installed opener. *)
Theorem call_script_success_banner req w :
  exists new,
    call_script req w = (Ok tt, extend w new [(req, w_opener w)])
    /\ (In [Txt "✅✅✅ Jenkins Verification SUCCESS! ✅✅✅"] new
        <-> exists msg b s, w_server w (w_opener w) req = Reply 200 msg b /\ decode b = Ok s).
Proof.
  exists (script_report (w_server w (w_opener w) req)).
  split; [apply call_script_spec |].
  destruct (w_server w (w_opener w) req) as [reason | code msg b | cls m0];
    cbn [script_report].
  1, 3: split; [intros H; cbn in H; intuition discriminate |];
        intros (m & b' & s & H & _); discriminate H.
  destruct (code =? 200) eqn:E200.
  - apply Z.eqb_eq in E200. subst code. cbn.
    destruct (decode b) as [s | e] eqn:D.
    + split; [intros _; eauto | intros _; left; reflexivity].
    + split; [intros H; cbn in H; intuition discriminate |].
      intros (m & b' & s & H & D'). injection H as <- <-. congruence.
  - split.
    + destruct ((200 <=? code) && (code <? 300)); cbn;
        [destruct (decode b) |]; intros H; cbn in H; intuition discriminate.
    + intros (m & b' & s & H & _). injection H as -> _ _. discriminate E200.
Qed.
